(** * WhereIsMyMoneyGoing: the extraction, categorization and anomaly pipeline

    A shallow embedding of the Python sources
    - [expense_tracker/models.py]            ([Models]),
    - [expense_tracker/anomaly_detector.py]  ([AnomalyDetector]),
    - [categorizer.py], [expense_tracker/categorizer.py] ([Categorizer]),
    - [transaction_parser.py]                ([Re], [TransactionParser]),
    - [analyzer.py]                          ([Analyzer]),
    followed by the properties of the specification that were checked
    against them.

    Conventions.  Python [float] amounts are read as exact rationals [Q];
    [str] is [string] (code points below 256); a [datetime] is a record of
    its seven fields; Python objects that are mutated in place live in a
    store indexed by references, and a Python list of objects is a list of
    references. *)

From Stdlib Require Import ZArith QArith Qabs Qround Ascii String List Permutation Sorted Lia.
From Stdlib Require Import FunctionalExtensionality.
From stdpp Require Import gmap strings list fin_maps.

Open Scope Z_scope.

(** ** Python built-ins used by the sources *)

Module Py.

Definition Qltb (x y : Q) : bool := negb (Qle_bool y x).

(** [round(x)] on a number: to the nearest integer, ties to even. *)
Definition round_half_even (x : Q) : Z :=
  let f := Qfloor x in
  let r := (x - inject_Z f)%Q in
  if Qltb r (1 # 2) then f
  else if Qltb (1 # 2) r then f + 1
  else if Z.even f then f else f + 1.

(** [round(x, ndigits)]. *)
Definition round (x : Q) (ndigits : nat) : Q :=
  let p := inject_Z (10 ^ Z.of_nat ndigits) in
  (inject_Z (round_half_even (x * p)) / p)%Q.

(** [sum(xs)] over numbers. *)
Definition sum (xs : list Q) : Q := fold_left Qplus xs 0%Q.

(** [sorted(xs, key=key, reverse=True)]: descending by key and stable,
    elements with equal keys keep their original order. *)
Fixpoint insert_desc {A} (key : A -> Q) (x : A) (l : list A) : list A :=
  match l with
  | [] => [x]
  | y :: l' => if Qltb (key x) (key y) then y :: insert_desc key x l'
               else x :: y :: l'
  end.

Definition sorted_desc {A} (key : A -> Q) (l : list A) : list A :=
  foldr (insert_desc key) [] l.

(** [list.sort(key=key)]: ascending by an integer key and stable. *)
Fixpoint insert_asc {A} (key : A -> Z) (x : A) (l : list A) : list A :=
  match l with
  | [] => [x]
  | y :: l' => if key y <? key x then y :: insert_asc key x l'
               else x :: y :: l'
  end.

Definition sort_asc {A} (key : A -> Z) (l : list A) : list A :=
  foldr (insert_asc key) [] l.

(** ASCII digits. *)
Definition digit (n : Z) : ascii := ascii_of_nat (48 + Z.to_nat n).

Definition is_digit (c : ascii) : bool :=
  let n := nat_of_ascii c in (48 <=? n)%nat && (n <=? 57)%nat.

Definition digit_val (c : ascii) : Z := Z.of_nat (nat_of_ascii c) - 48.

(** ['%0kd' % n] for [0 <= n < 10^k]. *)
Fixpoint zfill (k : nat) (n : Z) : string :=
  match k with
  | O => EmptyString
  | S k' => zfill k' (n / 10) +:+ String (digit (n mod 10)) EmptyString
  end.

(** Reads exactly [k] decimal digits from the front of [s]. *)
Fixpoint read_digits (k : nat) (acc : Z) (s : string) : option (Z * string) :=
  match k with
  | O => Some (acc, s)
  | S k' =>
      match s with
      | String c s' =>
          if is_digit c then read_digits k' (acc * 10 + digit_val c) s' else None
      | EmptyString => None
      end
  end.

(** [str.lower()] on one character: the capital letters of ASCII and
    of Latin-1 (the multiplication sign lies among the latter). *)
Definition lower_char (c : ascii) : ascii :=
  let n := nat_of_ascii c in
  if ((65 <=? n)%nat && (n <=? 90)%nat)
     || ((192 <=? n)%nat && (n <=? 222)%nat && negb (n =? 215)%nat)
  then ascii_of_nat (n + 32) else c.

Fixpoint lower (s : string) : string :=
  match s with
  | EmptyString => EmptyString
  | String c s' => String (lower_char c) (lower s')
  end.

(** [str.isspace()] of one character: the ASCII white space, the
    separators FS, GS, RS, US, and NEL and NBSP of Latin-1. *)
Definition is_space (c : ascii) : bool :=
  let n := nat_of_ascii c in
  ((9 <=? n)%nat && (n <=? 13)%nat) || ((28 <=? n)%nat && (n <=? 32)%nat)
  || (n =? 133)%nat || (n =? 160)%nat.

(** [needle in s] on [str]. *)
Fixpoint startswith (s p : string) : bool :=
  match p, s with
  | EmptyString, _ => true
  | String a p', String b s' => Ascii.eqb a b && startswith s' p'
  | String _ _, EmptyString => false
  end.

Fixpoint contains (needle s : string) : bool :=
  startswith s needle
  || match s with
     | EmptyString => false
     | String _ s' => contains needle s'
     end.

Fixpoint lstrip (s : string) : string :=
  match s with
  | String c s' => if is_space c then lstrip s' else s
  | EmptyString => EmptyString
  end.

Fixpoint rstrip (s : string) : string :=
  match s with
  | EmptyString => EmptyString
  | String c s' =>
      match rstrip s' with
      | EmptyString => if is_space c then EmptyString else String c EmptyString
      | r => String c r
      end
  end.

(** [s.strip()] *)
Definition strip (s : string) : string := rstrip (lstrip s).

(** [s.split(sep)] for a one-character separator: the pieces between
    the separators, empty ones included. *)
Fixpoint split (sep : ascii) (s : string) : list string :=
  match s with
  | EmptyString => [EmptyString]
  | String c s' =>
      if Ascii.eqb c sep then EmptyString :: split sep s'
      else match split sep s' with
           | w :: ws => String c w :: ws
           | [] => [String c EmptyString]
           end
  end.

(** [s.split()]: the maximal runs without white space. *)
Fixpoint split_ws_aux (cur : string) (s : string) : list string :=
  match s with
  | EmptyString => match cur with EmptyString => [] | _ => [cur] end
  | String c s' =>
      if is_space c
      then match cur with
           | EmptyString => split_ws_aux EmptyString s'
           | _ => cur :: split_ws_aux EmptyString s'
           end
      else split_ws_aux (cur +:+ String c EmptyString) s'
  end.

Definition split_ws (s : string) : list string := split_ws_aux EmptyString s.

(** [sep.join(ws)] *)
Fixpoint join (sep : string) (ws : list string) : string :=
  match ws with
  | [] => EmptyString
  | [w] => w
  | w :: ws' => w +:+ sep +:+ join sep ws'
  end.

(** [s.replace(c, '')] for a one-character [c]. *)
Fixpoint remove_char (c : ascii) (s : string) : string :=
  match s with
  | EmptyString => EmptyString
  | String d s' => if Ascii.eqb d c then remove_char c s' else String d (remove_char c s')
  end.

End Py.

(** ** [datetime.datetime], naive (without time zone) *)

Module Datetime.

Record datetime := mk_datetime {
  year : Z; month : Z; day : Z;
  hour : Z; minute : Z; second : Z; microsecond : Z
}.

Definition is_leap (y : Z) : bool :=
  (y mod 4 =? 0) && (negb (y mod 100 =? 0) || (y mod 400 =? 0)).

Definition days_in_month (y m : Z) : Z :=
  if m =? 2 then (if is_leap y then 29 else 28)
  else if (m =? 4) || (m =? 6) || (m =? 9) || (m =? 11) then 30 else 31.

(** The invariant every [datetime] object satisfies (its constructor
    raises [ValueError] otherwise). *)
Definition valid (d : datetime) : bool :=
  (1 <=? year d) && (year d <=? 9999) && (1 <=? month d) && (month d <=? 12)
  && (1 <=? day d) && (day d <=? days_in_month (year d) (month d))
  && (0 <=? hour d) && (hour d <? 24) && (0 <=? minute d) && (minute d <? 60)
  && (0 <=? second d) && (second d <? 60)
  && (0 <=? microsecond d) && (microsecond d <? 1000000).

Definition days_before_year (y : Z) : Z :=
  let p := y - 1 in p * 365 + p / 4 - p / 100 + p / 400.

Fixpoint days_before_month_aux (y : Z) (m : nat) : Z :=
  match m with
  | O => 0
  | S m' => days_before_month_aux y m' + days_in_month y (Z.of_nat m)
  end.

Definition days_before_month (y m : Z) : Z :=
  days_before_month_aux y (Z.to_nat (m - 1)).

(** [d.toordinal()]: 1 for 0001-01-01. *)
Definition toordinal (d : datetime) : Z :=
  days_before_year (year d) + days_before_month (year d) (month d) + day d.

(** [d.weekday()]: Monday is 0. *)
Definition weekday (d : datetime) : Z := (toordinal d + 6) mod 7.

(** Microseconds since the start of 0001-01-01; datetimes are ordered
    ([<], [==]) as these numbers are. *)
Definition to_micro (d : datetime) : Z :=
  (((toordinal d - 1) * 24 + hour d) * 60 + minute d) * 60000000
  + second d * 1000000 + microsecond d.

(** [(b - a).days]: a [timedelta] is normalised with
    [0 <= seconds < 86400], so [days] is the floor. *)
Definition sub_days (b a : datetime) : Z :=
  (to_micro b - to_micro a) / 86400000000.

(** [d.strftime('%Y-%m-%d')]. *)
Definition strftime_ymd (d : datetime) : string :=
  Py.zfill 4 (year d) +:+ "-" +:+ Py.zfill 2 (month d) +:+ "-" +:+ Py.zfill 2 (day d).

(** [d.isoformat()]: [YYYY-MM-DDTHH:MM:SS], with [.ffffff] appended when
    the microsecond is not 0. *)
Definition isoformat (d : datetime) : string :=
  strftime_ymd d +:+ "T" +:+ Py.zfill 2 (hour d) +:+ ":" +:+ Py.zfill 2 (minute d)
  +:+ ":" +:+ Py.zfill 2 (second d)
  +:+ (if microsecond d =? 0 then EmptyString
       else "." +:+ Py.zfill 6 (microsecond d)).

Definition expect (c : ascii) (s : string) : option string :=
  match s with
  | String c' s' => if Ascii.eqb c c' then Some s' else None
  | EmptyString => None
  end.

Definition checked (d : datetime) : option datetime :=
  if valid d then Some d else None.

(** The fraction of [fromisoformat]: [.fff] or [.ffffff]. *)
Definition parse_fraction (s : string) : option Z :=
  match Py.read_digits 6 0 s with
  | Some (us, EmptyString) => Some us
  | _ => match Py.read_digits 3 0 s with
         | Some (ms, EmptyString) => Some (ms * 1000)
         | _ => None
         end
  end.

(** The time part of [fromisoformat]: [HH[:MM[:SS[.fff[fff]]]]].
    Offsets are not accepted: the result would not be naive. *)
Definition parse_time (s : string) : option (Z * Z * Z * Z) :=
  '(hh, s1) ← Py.read_digits 2 0 s;
  match s1 with
  | EmptyString => Some (hh, 0, 0, 0)
  | _ =>
    s2 ← expect ":" s1;
    '(mi, s3) ← Py.read_digits 2 0 s2;
    match s3 with
    | EmptyString => Some (hh, mi, 0, 0)
    | _ =>
      s4 ← expect ":" s3;
      '(ss, s5) ← Py.read_digits 2 0 s4;
      match s5 with
      | EmptyString => Some (hh, mi, ss, 0)
      | _ => s6 ← expect "." s5; us ← parse_fraction s6; Some (hh, mi, ss, us)
      end
    end
  end.

(** [datetime.fromisoformat(s)]; [None] stands for [ValueError]. *)
Definition fromisoformat (s : string) : option datetime :=
  '(y, s1) ← Py.read_digits 4 0 s;
  s2 ← expect "-" s1;
  '(m, s3) ← Py.read_digits 2 0 s2;
  s4 ← expect "-" s3;
  '(d, s5) ← Py.read_digits 2 0 s4;
  match s5 with
  | EmptyString => checked (mk_datetime y m d 0 0 0 0)
  | String _ s6 =>
      '(hh, mi, ss, us) ← parse_time s6;
      checked (mk_datetime y m d hh mi ss us)
  end.

End Datetime.

(** ** [expense_tracker/models.py] *)

Module Models.
Import Datetime.

(** [@dataclass class Transaction]. *)
Record Transaction := mk_Transaction {
  date : datetime;
  description : string;
  amount : Q;
  category : string;
  is_anomaly : bool
}.

(** The values a serialized record holds. *)
Inductive pyvalue :=
| PStr (s : string)
| PFloat (x : Q)
| PBool (b : bool)
| PDatetime (d : datetime).

(** [Transaction.to_dict]: the date leaves as [isoformat()] text. *)
Definition to_dict (t : Transaction) : gmap string pyvalue :=
  <["date" := PStr (isoformat (date t))]>
  (<["description" := PStr (description t)]>
  (<["amount" := PFloat (amount t)]>
  (<["category" := PStr (category t)]>
  (<["is_anomaly" := PBool (is_anomaly t)]> ∅)))).

Definition fields : gset string :=
  {[ "date"; "description"; "amount"; "category"; "is_anomaly" ]}.

Definition as_str (v : pyvalue) : option string :=
  match v with PStr s => Some s | _ => None end.
Definition as_float (v : pyvalue) : option Q :=
  match v with PFloat x => Some x | _ => None end.
Definition as_bool (v : pyvalue) : option bool :=
  match v with PBool b => Some b | _ => None end.

(** [Transaction.from_dict]: a textual date goes through
    [datetime.fromisoformat], then [cls( **data )] takes the fields by
    name, [category] and [is_anomaly] with their defaults.  [None] stands
    for the exception raised on a missing or unknown key or an unreadable
    date; fields are kept at their annotated types. *)
Definition from_dict (data : gmap string pyvalue) : option Transaction :=
  v ← data !! "date";
  d ← match v with
      | PStr s => fromisoformat s
      | PDatetime d => Some d
      | _ => None
      end;
  if bool_decide (dom data ⊆ fields) then
    desc ← data !! "description" ≫= as_str;
    amt ← data !! "amount" ≫= as_float;
    cat ← match data !! "category" with
          | Some v => as_str v
          | None => Some "Uncategorized"%string
          end;
    flag ← match data !! "is_anomaly" with
           | Some v => as_bool v
           | None => Some false
           end;
    Some (mk_Transaction d desc amt cat flag)
  else None.

Definition set_is_anomaly (b : bool) (t : Transaction) : Transaction :=
  mk_Transaction (date t) (description t) (amount t) (category t) b.

(** [Transaction] objects are mutated in place by the detectors: they
    live in a store, and a list of transactions is a list of
    references into it. *)
Definition loc := nat.
Definition heap := loc -> Transaction.

Definition update (h : heap) (l : loc) (t : Transaction) : heap :=
  fun l' => if Nat.eqb l' l then t else h l'.

(** [t.is_anomaly = b] for the object at [l]. *)
Definition assign_is_anomaly (h : heap) (l : loc) (b : bool) : heap :=
  update h l (set_is_anomaly b (h l)).

End Models.

(** ** [expense_tracker/anomaly_detector.py] *)

Module AnomalyDetector.
Import Datetime Models.

(** What the module takes from numpy, scikit-learn and the interpreter. *)
Record Externals := mk_Externals {
  np_mean : list Q -> Q;
  np_std : list Q -> Q;
  np_median : list Q -> Q;
  np_percentile : list Q -> Q -> Q;
  (** [StandardScaler().fit_transform] *)
  fit_transform : list (list Q) -> list (list Q);
  (** [IsolationForest(contamination, random_state=42).fit_predict] *)
  fit_predict : Q -> list (list Q) -> list Z;
  (** the built-in [hash] on [str] *)
  py_hash : string -> Z
}.

(** One entry of [self.baseline_stats]. *)
Record Stats := mk_Stats { mean : Q; std : Q; median : Q; q1 : Q; q3 : Q }.

Section Detector.
Variable ext : Externals.
(** [self.contamination] *)
Variable contamination : Q.

(** The first loop of [calculate_baseline_stats]: absolute amounts per
    category. *)
Definition category_data (h : heap) (transactions : list loc)
  : gmap string (list Q) :=
  fold_left
    (fun data l =>
       let c := category (h l) in
       <[c := default [] (data !! c) ++ [Qabs (amount (h l))]]> data)
    transactions ∅.

Definition stats_of (amounts : list Q) : Stats :=
  mk_Stats (np_mean ext amounts) (np_std ext amounts) (np_median ext amounts)
           (np_percentile ext amounts 25) (np_percentile ext amounts 75).

(** [calculate_baseline_stats]: entries of the categories seen are
    written, the others stay. *)
Definition calculate_baseline_stats (baseline_stats : gmap string Stats)
    (h : heap) (transactions : list loc) : gmap string Stats :=
  (stats_of <$> category_data h transactions) ∪ baseline_stats.

(** The z-score test of [detect_statistical_anomalies]. *)
Definition zscore_test (stats : Stats) (amount : Q) : bool :=
  if Py.Qltb 0 (std stats) then
    let z_score := Qabs ((amount - mean stats) / std stats) in
    Py.Qltb 3 z_score
  else false.

(** The IQR test of [detect_statistical_anomalies]. *)
Definition iqr_test (stats : Stats) (amount : Q) : bool :=
  let iqr := (q3 stats - q1 stats)%Q in
  let lower_bound := (q1 stats - 1.5 * iqr)%Q in
  let upper_bound := (q3 stats + 1.5 * iqr)%Q in
  Py.Qltb amount lower_bound || Py.Qltb upper_bound amount.

(** One iteration of the loop of [detect_statistical_anomalies]. *)
Definition statistical_step (baseline_stats : gmap string Stats)
    (st : heap * list loc) (l : loc) : heap * list loc :=
  let '(h, anomalies) := st in
  let amount := Qabs (amount (h l)) in
  match baseline_stats !! category (h l) with
  | None => (h, anomalies)
  | Some stats =>
      if zscore_test stats amount
      then (assign_is_anomaly h l true, anomalies ++ [l])
      else if iqr_test stats amount
      then (assign_is_anomaly h l true, anomalies ++ [l])
      else (h, anomalies)
  end.

(** [detect_statistical_anomalies]: the baseline is computed from the
    given transactions when there is none yet. *)
Definition detect_statistical_anomalies (baseline_stats : gmap string Stats)
    (h : heap) (transactions : list loc)
  : gmap string Stats * heap * list loc :=
  let baseline_stats :=
    if decide (baseline_stats = ∅)
    then calculate_baseline_stats baseline_stats h transactions
    else baseline_stats in
  let '(h', anomalies) :=
    fold_left (statistical_step baseline_stats) transactions (h, []) in
  (baseline_stats, h', anomalies).

(** The feature rows of [detect_ml_anomalies]. *)
Definition features (h : heap) (transactions : list loc) : list (list Q) :=
  map (fun l =>
         let t := h l in
         [ Qabs (amount t); inject_Z (weekday (date t)); inject_Z (day (date t));
           inject_Z (py_hash ext (category t) mod 100) ])
      transactions.

(** The loop over [enumerate(predictions)]; [None] stands for the
    [IndexError] of [transactions[i]]. *)
Fixpoint ml_loop (transactions : list loc) (i : nat) (predictions : list Z)
    (st : heap * list loc) : option (heap * list loc) :=
  match predictions with
  | [] => Some st
  | prediction :: rest =>
      if prediction =? -1 then
        match transactions !! i with
        | Some l =>
            ml_loop transactions (S i) rest
                    (assign_is_anomaly (fst st) l true, snd st ++ [l])
        | None => None
        end
      else ml_loop transactions (S i) rest st
  end.

(** [detect_ml_anomalies]. *)
Definition detect_ml_anomalies (h : heap) (transactions : list loc)
  : option (heap * list loc) :=
  if (length transactions <? 10)%nat then Some (h, [])
  else
    let features_scaled := fit_transform ext (features h transactions) in
    let predictions := fit_predict ext contamination features_scaled in
    ml_loop transactions 0 predictions (h, []).

(** The grouping loop of [detect_frequency_anomalies]: a [dict] from
    description to list, in insertion order. *)
Fixpoint add_to_group (desc : string) (l : loc)
    (groups : list (string * list loc)) : list (string * list loc) :=
  match groups with
  | [] => [(desc, [l])]
  | (d, ls) :: groups' =>
      if String.eqb d desc then (d, ls ++ [l]) :: groups'
      else (d, ls) :: add_to_group desc l groups'
  end.

Definition merchant_transactions (h : heap) (transactions : list loc)
  : list (string * list loc) :=
  fold_left (fun groups l => add_to_group (description (h l)) l groups)
            transactions [].

(** [time_diffs] of a sorted group. *)
Fixpoint time_diffs (h : heap) (trans_list : list loc) : list Z :=
  match trans_list with
  | a :: (b :: _) as rest => sub_days (date (h b)) (date (h a)) :: time_diffs h rest
  | _ => []
  end.

(** [if not t.is_anomaly: t.is_anomaly = True; anomalies.append(t)]. *)
Definition flag_once (st : heap * list loc) (l : loc) : heap * list loc :=
  let '(h, anomalies) := st in
  if is_anomaly (h l) then st
  else (assign_is_anomaly h l true, anomalies ++ [l]).

(** The loop over [enumerate(time_diffs)]: [diff] comes with
    [trans_list[i]] and [trans_list[i+1]]. *)
Fixpoint frequency_pairs (avg_diff : Q) (diffs : list Z) (trans_list : list loc)
    (st : heap * list loc) : heap * list loc :=
  match diffs, trans_list with
  | diff :: diffs', a :: (b :: _) as rest =>
      let st' :=
        if Py.Qltb (inject_Z diff) (avg_diff / 3) && (diff <? 2)
        then flag_once (flag_once st a) b
        else st in
      frequency_pairs avg_diff diffs' rest st'
  | _, _ => st
  end.

(** The body of the loop over the groups. *)
Definition frequency_group (st : heap * list loc) (group : string * list loc)
  : heap * list loc :=
  let trans_list := snd group in
  if (length trans_list <? 2)%nat then st
  else
    let trans_list := Py.sort_asc (fun l => to_micro (date (fst st l))) trans_list in
    let diffs := time_diffs (fst st) trans_list in
    match diffs with
    | [] => st
    | _ =>
        let avg_diff := np_mean ext (map inject_Z diffs) in
        frequency_pairs avg_diff diffs trans_list st
    end.

(** [detect_frequency_anomalies]. *)
Definition detect_frequency_anomalies (h : heap) (transactions : list loc)
  : heap * list loc :=
  fold_left frequency_group (merchant_transactions h transactions) (h, []).

(** The result of [detect_all_anomalies]. *)
Record Results := mk_Results {
  statistical : list loc;
  ml_based : list loc;
  frequency : list loc
}.

Definition reset_flags (h : heap) (transactions : list loc) : heap :=
  fold_left (fun h l => assign_is_anomaly h l false) transactions h.

(** [detect_all_anomalies]. *)
Definition detect_all_anomalies (baseline_stats : gmap string Stats)
    (h : heap) (transactions : list loc)
  : option (gmap string Stats * heap * Results) :=
  let h0 := reset_flags h transactions in
  let '(baseline_stats, h1, statistical_anomalies) :=
    detect_statistical_anomalies baseline_stats h0 transactions in
  '(h2, ml_anomalies) ← detect_ml_anomalies h1 transactions;
  let '(h3, frequency_anomalies) := detect_frequency_anomalies h2 transactions in
  Some (baseline_stats, h3,
        mk_Results statistical_anomalies ml_anomalies frequency_anomalies).

End Detector.

(** One entry of the summary's ['anomalies'] list. *)
Record Entry := mk_Entry {
  e_date : string; e_description : string; e_amount : Q; e_category : string
}.

Record Summary := mk_Summary {
  total_transactions : nat;
  anomaly_count : nat;
  anomaly_percentage : Q;
  total_anomaly_amount : Q;
  anomalies : list Entry
}.

(** The store after [t.is_anomaly = True] for each [t] of [ls]. *)
Definition mark_all (h : heap) (ls : list loc) : heap :=
  fold_left (fun h l => assign_is_anomaly h l true) ls h.

Definition abs_amount (h : heap) (l : loc) : Q := Qabs (amount (h l)).

Definition entry_of (h : heap) (l : loc) : Entry :=
  let t := h l in
  mk_Entry (strftime_ymd (date t)) (description t) (amount t) (category t).

(** [[t for t in transactions if t.is_anomaly]]. *)
Definition flagged (h : heap) (transactions : list loc) : list loc :=
  filter (fun l => is_anomaly (h l) = true) transactions.

(** [sorted(anomalies, key=lambda x: abs(x.amount), reverse=True)[:10]]. *)
Definition top_anomalies (h : heap) (anomalies : list loc) : list loc :=
  take 10 (Py.sorted_desc (abs_amount h) anomalies).

(** [get_anomaly_summary]. *)
Definition get_anomaly_summary (h : heap) (transactions : list loc) : Summary :=
  let anomalies := flagged h transactions in
  let total_anomaly_amount := Py.sum (map (abs_amount h) anomalies) in
  mk_Summary
    (length transactions)
    (length anomalies)
    (match transactions with
     | [] => 0%Q
     | _ => Py.round (inject_Z (Z.of_nat (length anomalies))
                      / inject_Z (Z.of_nat (length transactions)) * 100)%Q 2
     end)
    (Py.round total_anomaly_amount 2)
    (map (entry_of h) (top_anomalies h anomalies)).

End AnomalyDetector.

(** ** The fragment of Python's [re] the sources use

    A backtracking matcher with the priorities of [re]: alternatives left
    to right, repetitions greedy.  [search] returns the span of the first
    match at the leftmost position where one exists. *)

Module Re.

Inductive regex :=
| Eps
| Chr (p : ascii -> bool)
| Seq (r1 r2 : regex)
| Alt (r1 r2 : regex)
| Star (r : regex)
| Bol
| Eol.

(** [run r pos s k]: match [r] at offset [pos], where [s] is what is left
    of the subject, and continue with [k]; on failure of [k] the next
    way of matching [r] is tried. *)
Fixpoint run {R} (r : regex) (pos : nat) (s : string)
    (k : nat -> string -> option R) : option R :=
  match r with
  | Eps => k pos s
  | Chr p =>
      match s with
      | String c s' => if p c then k (S pos) s' else None
      | EmptyString => None
      end
  | Seq r1 r2 => run r1 pos s (fun pos' s' => run r2 pos' s' k)
  | Alt r1 r2 =>
      match run r1 pos s k with
      | Some x => Some x
      | None => run r2 pos s k
      end
  | Star r1 =>
      (fix loop (fuel : nat) (pos : nat) (s : string) {struct fuel} : option R :=
         match fuel with
         | O => k pos s
         | S fuel' =>
             match run r1 pos s
                     (fun pos' s' =>
                        if (pos <? pos')%nat then loop fuel' pos' s' else None) with
             | Some x => Some x
             | None => k pos s
             end
         end) (String.length s) pos s
  | Bol => if (pos =? 0)%nat then k pos s else None
  | Eol =>
      match s with
      | EmptyString => k pos s
      | String c EmptyString => if Ascii.eqb c "010" then k pos s else None
      | _ => None
      end
  end.

(** [pattern.match(s, pos)]: the end of the match starting at [pos]. *)
Definition match_at (r : regex) (pos : nat) (s : string) : option nat :=
  run r pos s (fun e _ => Some e).

Fixpoint search_from (r : regex) (pos : nat) (s : string) : option (nat * nat) :=
  match match_at r pos s with
  | Some e => Some (pos, e)
  | None =>
      match s with
      | EmptyString => None
      | String _ s' => search_from r (S pos) s'
      end
  end.

(** [pattern.search(s)]: [(m.start(), m.end())]. *)
Definition search (r : regex) (s : string) : option (nat * nat) :=
  search_from r 0 s.

Fixpoint drop (n : nat) (s : string) : string :=
  match n, s with
  | S n', String _ s' => drop n' s'
  | _, _ => s
  end.

Fixpoint take (n : nat) (s : string) : string :=
  match n, s with
  | S n', String c s' => String c (take n' s')
  | _, _ => EmptyString
  end.

(** [s[b:e]] for non-negative bounds. *)
Definition slice (b e : nat) (s : string) : string := take (e - b) (drop b s).

(** [re.sub(r, '', s)]: every non-overlapping match removed, left to
    right; [s] is what is left of the subject at offset [pos]. *)
Fixpoint sub_from (fuel : nat) (r : regex) (pos : nat) (s : string) : string :=
  match fuel with
  | O => s
  | S fuel' =>
      match match_at r pos s with
      | Some e =>
          if (pos <? e)%nat then sub_from fuel' r e (drop (e - pos) s)
          else match s with
               | EmptyString => EmptyString
               | String c s' => String c (sub_from fuel' r (S pos) s')
               end
      | None =>
          match s with
          | EmptyString => EmptyString
          | String c s' => String c (sub_from fuel' r (S pos) s')
          end
      end
  end.

Definition sub (r : regex) (s : string) : string :=
  sub_from (S (String.length s)) r 0 s.

(** Pattern syntax. *)
Definition opt (r : regex) : regex := Alt r Eps.
Definition plus (r : regex) : regex := Seq r (Star r).

Fixpoint times (n : nat) (r : regex) : regex :=
  match n with O => Eps | S n' => Seq r (times n' r) end.

Fixpoint upto (n : nat) (r : regex) : regex :=
  match n with O => Eps | S n' => Alt (Seq r (upto n' r)) Eps end.

(** [r{lo,hi}] *)
Definition rep (lo hi : nat) (r : regex) : regex :=
  Seq (times lo r) (upto (hi - lo) r).

Fixpoint seqs (rs : list regex) : regex :=
  match rs with
  | [] => Eps
  | [r] => r
  | r :: rs' => Seq r (seqs rs')
  end.

(** [r1|r2|...]; the empty alternation is the empty pattern. *)
Fixpoint alts (rs : list regex) : regex :=
  match rs with
  | [] => Eps
  | [r] => r
  | r :: rs' => Alt r (alts rs')
  end.

Definition chr (c : ascii) : regex := Chr (Ascii.eqb c).
Definition one_of (cs : string) : regex :=
  Chr (fun c => existsb (Ascii.eqb c) (list_ascii_of_string cs)).
Definition digit : regex := Chr Py.is_digit.
Definition space : regex := Chr Py.is_space.

(** A literal, as [re.escape] protects it. *)
Fixpoint lit (s : string) : regex :=
  match s with
  | EmptyString => Eps
  | String c s' => Seq (chr c) (lit s')
  end.

(** A literal under [re.IGNORECASE]. *)
Fixpoint lit_i (s : string) : regex :=
  match s with
  | EmptyString => Eps
  | String c s' =>
      Seq (Chr (fun d => Ascii.eqb (Py.lower_char d) (Py.lower_char c))) (lit_i s')
  end.

End Re.

(** ** [categorizer.py] and [expense_tracker/categorizer.py] *)

Module Categorizer.

(** [TransactionCategorizer.CATEGORY_KEYWORDS], in the order of the
    source: a [dict] iterates in insertion order. *)
Definition CATEGORY_KEYWORDS : list (string * list string) :=
  [ ("Food & Dining",
     ["restaurant"; "cafe"; "coffee"; "starbucks"; "pizza"; "burger";
      "mcdonald"; "subway"; "chipotle"; "domino"; "taco"; "kfc";
      "wendy"; "dunkin"; "bakery"; "diner"; "grill"; "kitchen";
      "bar"; "pub"; "bistro"; "food"; "dining"; "eatery"; "doordash";
      "ubereats"; "grubhub"; "zomato"; "swiggy"; "delivery"]);
    ("Groceries",
     ["supermarket"; "grocery"; "walmart"; "target"; "costco";
      "safeway"; "kroger"; "albertsons"; "whole foods"; "trader joe";
      "aldi"; "market"; "fresh"; "organic"; "produce"; "mart"]);
    ("Transportation",
     ["gas"; "fuel"; "shell"; "chevron"; "exxon"; "bp"; "mobil";
      "uber"; "lyft"; "taxi"; "cab"; "transit"; "metro"; "bus";
      "train"; "parking"; "toll"; "transportation"; "airline";
      "flight"; "airport"]);
    ("Shopping",
     ["amazon"; "ebay"; "etsy"; "shop"; "store"; "mall"; "retail";
      "clothing"; "apparel"; "fashion"; "shoes"; "accessories";
      "electronics"; "best buy"; "apple store"; "outlet"; "boutique"]);
    ("Entertainment",
     ["movie"; "cinema"; "theater"; "netflix"; "hulu"; "spotify";
      "disney"; "hbo"; "prime video"; "youtube"; "gaming"; "steam";
      "playstation"; "xbox"; "concert"; "event"; "tickets"; "ticketmaster"]);
    ("Utilities",
     ["electric"; "electricity"; "power"; "gas company"; "water";
      "sewer"; "internet"; "phone"; "verizon"; "at&t"; "t-mobile";
      "sprint"; "comcast"; "spectrum"; "utility"; "bill"]);
    ("Healthcare",
     ["pharmacy"; "cvs"; "walgreens"; "doctor"; "hospital"; "clinic";
      "medical"; "dental"; "dentist"; "health"; "wellness"; "urgent care";
      "lab"; "prescription"; "medicine"; "drug"]);
    ("Rent/Housing",
     ["rent"; "lease"; "apartment"; "property"; "landlord"; "housing";
      "mortgage"; "hoa"; "home"; "real estate"; "realty"]);
    ("Insurance",
     ["insurance"; "premium"; "policy"; "geico"; "progressive";
      "state farm"; "allstate"; "coverage"]);
    ("Education",
     ["school"; "university"; "college"; "tuition"; "book"; "course";
      "education"; "learning"; "academy"; "institute"; "udemy";
      "coursera"; "textbook"]);
    ("Subscriptions",
     ["subscription"; "monthly"; "membership"; "annual"; "renew";
      "gym"; "fitness"; "planet fitness"; "24 hour"; "crunch";
      "adobe"; "microsoft"; "office 365"; "dropbox"; "icloud"]);
    ("Personal Care",
     ["salon"; "spa"; "barber"; "haircut"; "beauty"; "cosmetic";
      "makeup"; "skincare"; "massage"; "nail"; "grooming"]);
    ("Financial",
     ["bank"; "atm"; "fee"; "charge"; "interest"; "transfer";
      "payment"; "withdrawal"; "deposit"]);
    ("Charity",
     ["donation"; "charity"; "foundation"; "nonprofit"; "church";
      "temple"; "mosque"; "giving"; "fundraiser"]);
    ("Travel",
     ["hotel"; "motel"; "resort"; "booking"; "airbnb"; "hostel";
      "marriott"; "hilton"; "hyatt"; "expedia"; "travel"; "vacation"]);
    ("Pet Care",
     ["pet"; "vet"; "veterinary"; "petsmart"; "petco"; "grooming";
      "animal"; "dog"; "cat"]) ]%string.

(** [d[k] = v] on an insertion-ordered [dict]: an existing key keeps its
    place, a new one goes last. *)
Fixpoint dict_set {V} (k : string) (v : V) (d : list (string * V))
  : list (string * V) :=
  match d with
  | [] => [(k, v)]
  | (k', v') :: d' =>
      if String.eqb k' k then (k', v) :: d' else (k', v') :: dict_set k v d'
  end.

(** [d.update(other)] *)
Definition dict_update {V} (d other : list (string * V)) : list (string * V) :=
  fold_left (fun d kv => dict_set (fst kv) (snd kv) d) other d.

(** [__init__]: [self.categories]. *)
Definition categories (custom_categories : list (string * list string))
  : list (string * list string) :=
  dict_update CATEGORY_KEYWORDS custom_categories.

(** [_compile_patterns]: per category
    [re.compile('|'.join(re.escape(kw) for kw in keywords), re.IGNORECASE)]. *)
Definition _compile_patterns (categories : list (string * list string))
  : list (string * Re.regex) :=
  map (fun ck => (fst ck, Re.alts (map Re.lit_i (snd ck)))) categories.

Definition matches (pattern : Re.regex) (text : string) : bool :=
  match Re.search pattern text with Some _ => true | None => false end.

Fixpoint first_match (category_patterns : list (string * Re.regex))
    (text : string) : string :=
  match category_patterns with
  | [] => "Other"
  | (category, pattern) :: rest =>
      if matches pattern text then category else first_match rest text
  end.

(** [TransactionCategorizer.categorize_transaction]. *)
Definition categorize_transaction (category_patterns : list (string * Re.regex))
    (merchant description : string) : string :=
  let text := Py.lower (merchant +:+ " " +:+ description) in
  first_match category_patterns text.

(** [ExpenseCategorizer._initialize_categories]: names and keywords. *)
Definition expense_categories : list (string * list string) :=
  [ ("Groceries",
     ["grocery"; "supermarket"; "walmart"; "target"; "costco"; "whole foods";
      "trader joe"; "safeway"; "kroger"; "albertsons"; "food mart"]);
    ("Restaurants",
     ["restaurant"; "cafe"; "coffee"; "starbucks"; "mcdonald"; "burger";
      "pizza"; "dining"; "food delivery"; "uber eats"; "doordash"; "grubhub"]);
    ("Transportation",
     ["gas"; "fuel"; "uber"; "lyft"; "taxi"; "parking"; "metro"; "transit";
      "subway"; "train"; "bus"; "toll"; "chevron"; "shell"; "exxon"; "bp"]);
    ("Utilities",
     ["electric"; "electricity"; "power"; "gas company"; "water"; "sewage";
      "internet"; "phone"; "mobile"; "cable"; "utility"]);
    ("Entertainment",
     ["movie"; "cinema"; "theater"; "theatre"; "netflix"; "spotify"; "hulu";
      "disney"; "amazon prime"; "gaming"; "concert"; "music"; "entertainment"]);
    ("Shopping",
     ["amazon"; "ebay"; "store"; "shop"; "retail"; "clothing"; "apparel";
      "fashion"; "mall"; "department"]);
    ("Healthcare",
     ["pharmacy"; "doctor"; "hospital"; "medical"; "health"; "clinic";
      "dental"; "dentist"; "cvs"; "walgreens"; "rite aid"]);
    ("Insurance", ["insurance"; "premium"; "policy"]);
    ("Housing", ["rent"; "mortgage"; "lease"; "property"; "hoa"; "homeowner"]);
    ("Education",
     ["tuition"; "school"; "university"; "college"; "education"; "course";
      "book"; "textbook"; "student"]);
    ("Fitness", ["gym"; "fitness"; "yoga"; "sport"; "athletic"; "exercise"]);
    ("Travel",
     ["hotel"; "airbnb"; "airline"; "flight"; "airport"; "booking";
      "travel"; "vacation"; "resort"]);
    ("Subscriptions", ["subscription"; "membership"; "monthly"; "annual fee"]) ]%string.

(** [ExpenseCategorizer.categorize_transaction]: the two nested loops,
    [keyword in description_lower]. *)
Fixpoint expense_first_match (categories : list (string * list string))
    (description_lower : string) : string :=
  match categories with
  | [] => "Other"
  | (category_name, keywords) :: rest =>
      if existsb (fun keyword => Py.contains keyword description_lower) keywords
      then category_name
      else expense_first_match rest description_lower
  end.

Definition expense_categorize_transaction (categories : list (string * list string))
    (t : Models.Transaction) : string :=
  expense_first_match categories (Py.lower (Models.description t)).

End Categorizer.

(** ** [transaction_parser.py] *)

Module TransactionParser.
Import Re.

Definition month_names : regex :=
  alts (map lit ["Jan"; "Feb"; "Mar"; "Apr"; "May"; "Jun";
                 "Jul"; "Aug"; "Sep"; "Oct"; "Nov"; "Dec"]%string).

Definition lower_letter : regex :=
  Chr (fun c => let n := nat_of_ascii c in (97 <=? n)%nat && (n <=? 122)%nat).

(** [DATE_PATTERNS] *)
Definition DATE_PATTERNS : list regex :=
  [ (* \d{1,2}[/-]\d{1,2}[/-]\d{2,4} *)
    seqs [rep 1 2 digit; one_of "/-"; rep 1 2 digit; one_of "/-"; rep 2 4 digit];
    (* \d{4}[/-]\d{1,2}[/-]\d{1,2} *)
    seqs [times 4 digit; one_of "/-"; rep 1 2 digit; one_of "/-"; rep 1 2 digit];
    (* \d{1,2}\s+(?:Jan|...|Dec)[a-z]*\s+\d{2,4} *)
    seqs [rep 1 2 digit; plus space; month_names; Star lower_letter; plus space;
          rep 2 4 digit];
    (* (?:Jan|...|Dec)[a-z]*\s+\d{1,2},?\s+\d{2,4} *)
    seqs [month_names; Star lower_letter; plus space; rep 1 2 digit; opt (chr ",");
          plus space; rep 2 4 digit] ].

(** The class of currency signs: the dollar, and the pound and the yen
    of Latin-1; the euro and the rupee lie outside the alphabet of
    [string]. *)
Definition currency : regex :=
  Chr (fun c => let n := nat_of_ascii c in
                (n =? 36)%nat || (n =? 163)%nat || (n =? 165)%nat).

(** [\d{1,3}(?:,\d{3})*(?:\.\d{2})?] *)
Definition number : regex :=
  seqs [rep 1 3 digit; Star (Seq (chr ",") (times 3 digit));
        opt (Seq (chr ".") (times 2 digit))].

(** [AMOUNT_PATTERNS] *)
Definition AMOUNT_PATTERNS : list regex :=
  [ seqs [currency; Star space; number];
    seqs [number; Star space; alts (map lit ["USD"; "EUR"; "GBP"; "INR"; "RS"]%string)];
    number ].

(** [__init__]: ['|'.join(f'({p})' for p in ...)]. *)
Definition date_regex : regex := alts DATE_PATTERNS.
Definition amount_regex : regex := alts AMOUNT_PATTERNS.

(** [_clean_merchant] *)
Definition _clean_merchant (merchant : string) : string :=
  let merchant :=
    sub (seqs [Bol; alts (map lit_i ["POS"; "ATM"; "ONLINE"; "DEBIT"; "CREDIT"]%string);
               Star space]) merchant in
  let merchant :=
    sub (seqs [plus space; alts (map lit_i ["LLC"; "INC"; "CORP"; "LTD"]%string);
               opt (chr "."); Eol]) merchant in
  Py.join " " (Py.split_ws merchant).

(** The dictionary [_parse_line] returns. *)
Record Raw := mk_Raw {
  raw_date : string; raw_merchant : string; raw_amount : string;
  raw_description : string
}.

(** [_parse_line] *)
Definition _parse_line (line : string) : option Raw :=
  match search date_regex line with
  | None => None
  | Some (date_start, date_end) =>
      let date_str := slice date_start date_end line in
      match search amount_regex line with
      | None => None
      | Some (amount_start, amount_end) =>
          let amount_str := slice amount_start amount_end line in
          let merchant := Py.strip (slice date_end amount_start line) in
          let description := line in
          let merchant := _clean_merchant merchant in
          Some (mk_Raw date_str merchant amount_str description)
      end
  end.

(** [float(s)] for [s] made of digits, points and minus signs, which is
    all [_parse_amount] leaves: an optional sign, digits with at most one
    point, one digit at least. *)
Fixpoint digits_value (acc : Z) (s : string) : option (Z * string) :=
  match s with
  | String c s' => if Py.is_digit c then digits_value (acc * 10 + Py.digit_val c) s'
                   else Some (acc, s)
  | EmptyString => Some (acc, s)
  end.

Definition unsigned_float (s : string) : option Q :=
  '(int_part, rest) ← digits_value 0 s;
  let int_len := (String.length s - String.length rest)%nat in
  match rest with
  | EmptyString => if (0 <? int_len)%nat then Some (inject_Z int_part) else None
  | String c frac =>
      if Ascii.eqb c "." then
        '(frac_part, rest') ← digits_value 0 frac;
        match rest' with
        | EmptyString =>
            if (0 <? int_len + String.length frac)%nat
            then Some (inject_Z int_part
                       + inject_Z frac_part / inject_Z (10 ^ Z.of_nat (String.length frac)))%Q
            else None
        | _ => None
        end
      else None
  end.

Definition float (s : string) : option Q :=
  match s with
  | String c s' => if Ascii.eqb c "-" then Qopp <$> unsigned_float s'
                   else unsigned_float s
  | EmptyString => None
  end.

(** [_parse_amount] *)
Definition _parse_amount (amount_str : string) : Q :=
  let amount_str :=
    sub (Chr (fun c => negb (Py.is_digit c || Ascii.eqb c "," || Ascii.eqb c "."
                             || Ascii.eqb c "-"))) amount_str in
  let amount_str := Py.remove_char "," amount_str in
  match float amount_str with
  | Some x => x
  | None => 0%Q
  end.

(** A row of the cleaned data frame. *)
Record Row := mk_Row {
  date : Datetime.datetime; merchant : string; amount : Q; description : string
}.

Section Parser.
(** [dateutil.parser.parse(s, dayfirst=b)], [None] when it raises, and
    [datetime.now()]. *)
Variable dateutil_parse : string -> bool -> option Datetime.datetime.
Variable now : Datetime.datetime.

(** [_parse_date] *)
Definition _parse_date (date_str : string) : Datetime.datetime :=
  match dateutil_parse date_str false with
  | Some d => d
  | None => match dateutil_parse date_str true with
            | Some d => d
            | None => now
            end
  end.

Definition same_key (a b : Row) : bool :=
  (Datetime.to_micro (date a) =? Datetime.to_micro (date b))
  && String.eqb (merchant a) (merchant b) && Qeq_bool (amount a) (amount b).

(** [df.drop_duplicates(subset=['date', 'merchant', 'amount'], keep='first')] *)
Fixpoint drop_duplicates (rows : list Row) : list Row :=
  match rows with
  | [] => []
  | r :: rows' => r :: filter (fun r' => same_key r r' = false) (drop_duplicates rows')
  end.

(** [_clean_dataframe]; rows with equal dates are left in their order
    by the sort. *)
Definition _clean_dataframe (raws : list Raw) : list Row :=
  let rows :=
    map (fun r => mk_Row (_parse_date (raw_date r)) (raw_merchant r)
                         (_parse_amount (raw_amount r)) (raw_description r)) raws in
  let rows :=
    Py.sorted_desc (fun r => inject_Z (Datetime.to_micro (date r))) rows in
  drop_duplicates rows.

(** [parse_transactions] *)
Definition parse_transactions (text : string) : list Row :=
  let lines := Py.split "010" text in
  let transactions :=
    omap (fun line =>
            let line := Py.strip line in
            match line with
            | EmptyString => None
            | _ => _parse_line line
            end) lines in
  _clean_dataframe transactions.

End Parser.

End TransactionParser.

(** ** [analyzer.py]: [SpendingAnalyzer.find_duplicate_transactions] *)

Module Analyzer.
Import Datetime.

(** A row of [self.df] with its index label; a missing merchant column
    reads as the empty text ([row.get('merchant', '')]). *)
Record Row := mk_Row {
  index : nat; date : datetime; merchant : string; amount : Q
}.

(** A row of the result. *)
Record Duplicate := mk_Duplicate {
  date1 : datetime; merchant1 : string; dup_amount : Q;
  date2 : datetime; merchant2 : string; days_apart : Z
}.

(** [timedelta(days=1)] in microseconds. *)
Definition one_day : Z := 86400000000.

(** The mask selecting [similar] for [row]. *)
Definition is_similar (time_window : Z) (row other : Row) : bool :=
  Qeq_bool (amount other) (amount row)
  && (to_micro (date row) <=? to_micro (date other))
  && (to_micro (date other) <=? to_micro (date row) + time_window * one_day)
  && negb (index other =? index row)%nat.

Definition pair_row (row sim_row : Row) : Duplicate :=
  mk_Duplicate (date row) (merchant row) (amount row)
               (date sim_row) (merchant sim_row)
               (sub_days (date sim_row) (date row)).

(** Equality of result rows, column by column. *)
Definition same_row (a b : Duplicate) : bool :=
  (to_micro (date1 a) =? to_micro (date1 b)) && String.eqb (merchant1 a) (merchant1 b)
  && Qeq_bool (dup_amount a) (dup_amount b)
  && (to_micro (date2 a) =? to_micro (date2 b)) && String.eqb (merchant2 a) (merchant2 b)
  && (days_apart a =? days_apart b).

(** [DataFrame.drop_duplicates()]: the first of equal rows stays. *)
Fixpoint drop_duplicates (rows : list Duplicate) : list Duplicate :=
  match rows with
  | [] => []
  | r :: rows' => r :: filter (fun r' => same_row r r' = false) (drop_duplicates rows')
  end.

(** [self.df.sort_values('date')]; rows with equal dates are left in
    their order. *)
Definition sort_values (df : list Row) : list Row :=
  Py.sort_asc (fun r => to_micro (date r)) df.

(** [find_duplicate_transactions] *)
Definition find_duplicate_transactions (df : list Row) (time_window : Z)
  : list Duplicate :=
  let df_sorted := sort_values df in
  let duplicates :=
    flat_map (fun row => map (pair_row row) (filter (fun o => is_similar time_window row o = true) df_sorted))
             df_sorted in
  drop_duplicates duplicates.

End Analyzer.

(** ** Stand-ins for the libraries, to run the definitions on examples

    Rational versions of the numpy functions (the square root of [np.std]
    cut at six decimals), a scaler that leaves the rows as they are, a
    model that labels a row by its first feature, and a hash by length.
    They are used to evaluate the embedding on concrete inputs only; the
    theorems hold for every [Externals]. *)

Module Samples.
Import Datetime Models AnomalyDetector.

Definition mean (xs : list Q) : Q :=
  (Py.sum xs / inject_Z (Z.of_nat (length xs)))%Q.

Definition std (xs : list Q) : Q :=
  let m := mean xs in
  let var := mean (map (fun x => (x - m) * (x - m))%Q xs) in
  (inject_Z (Z.sqrt (Qfloor (var * 1000000000000))) / 1000000)%Q.

Fixpoint insert_q (x : Q) (l : list Q) : list Q :=
  match l with
  | [] => [x]
  | y :: l' => if Py.Qltb y x then y :: insert_q x l' else x :: y :: l'
  end.

(** [np.percentile(xs, p)] with linear interpolation. *)
Definition percentile (xs : list Q) (p : Q) : Q :=
  let sorted := foldr insert_q [] xs in
  let pos := (inject_Z (Z.of_nat (length xs) - 1) * p / 100)%Q in
  let lo := Z.to_nat (Qfloor pos) in
  let frac := (pos - inject_Z (Qfloor pos))%Q in
  let a := nth lo sorted 0%Q in
  let b := nth (S lo) sorted a in
  (a + frac * (b - a))%Q.

Definition median (xs : list Q) : Q := percentile xs 50.

Definition label_by_amount (limit : Q) (rows : list (list Q)) : list Z :=
  map (fun row => if Py.Qltb limit (nth 0 row 0%Q) then -1 else 1) rows.

Definition ext : Externals :=
  mk_Externals mean std median percentile (fun rows => rows)
               (fun _ rows => label_by_amount 500 rows)
               (fun s => Z.of_nat (String.length s)).

Definition on (y m d : Z) : datetime := mk_datetime y m d 0 0 0 0.

(** A store built from a list of records: reference [i] is the [i]-th. *)
Definition heap_of (ts : list Transaction) : heap :=
  fun l => nth l ts (mk_Transaction (on 1 1 1) EmptyString 0 "Uncategorized" false).

(** Ten monthly rent payments, one of them far above the others. *)
Definition rents : list Transaction :=
  map (fun i => mk_Transaction (on 2024 (Z.of_nat i + 1) 1) "Landlord"
                               (if (i =? 7)%nat then 2600 else 60) "Rent" false)
      (seq 0 10).

Definition flat_rent : Stats := mk_Stats 50 0 50 50 50.

End Samples.

(** ** The vocabulary of the properties *)

Module Spec.
Import Datetime Models AnomalyDetector.


(** Outside [[Q1 - 1.5 IQR, Q3 + 1.5 IQR]]. *)
Definition outside_fence (stats : Stats) (a : Q) : Prop :=
  (a < q1 stats - 1.5 * (q3 stats - q1 stats)
   \/ q3 stats + 1.5 * (q3 stats - q1 stats) < a)%Q.


(** What one iteration of the statistical loop decides, read off the
    store. *)
Definition statistical_flag (bs : gmap string Stats) (h : heap) (l : loc) : bool :=
  match bs !! category (h l) with
  | None => false
  | Some stats =>
      zscore_test stats (Qabs (amount (h l))) || iqr_test stats (Qabs (amount (h l)))
  end.

(** The transactions the model labels -1, in the order of the list. *)
Fixpoint outliers (transactions : list loc) (predictions : list Z) : list loc :=
  match transactions, predictions with
  | l :: ts, p :: ps => if p =? -1 then l :: outliers ts ps else outliers ts ps
  | _, _ => []
  end.

(** The state of the frequency detector's loops, against the store [h0]
    it started from: the flags set so far are those of the list, the
    list has no repetition and holds no transaction flagged in [h0]. *)
Definition frequency_inv (h0 : heap) (st : heap * list loc) : Prop :=
  (forall l, fst st l = set_is_anomaly (is_anomaly (h0 l) || bool_decide (l ∈ snd st)) (h0 l))
  /\ NoDup (snd st)
  /\ (forall l, l ∈ snd st -> is_anomaly (h0 l) = false).

(** Descending by key. *)
Definition desc {A} (key : A -> Q) (x y : A) : Prop := (key y <= key x)%Q.


(** [s] starts with [p], letter case ignored. *)
Fixpoint startswith_i (s p : string) : bool :=
  match p, s with
  | EmptyString, _ => true
  | String a p', String b s' =>
      Ascii.eqb (Py.lower_char b) (Py.lower_char a) && startswith_i s' p'
  | String _ _, EmptyString => false
  end.

(** [keyword] occurs somewhere in [s], letter case ignored. *)
Fixpoint contains_i (keyword s : string) : bool :=
  startswith_i s keyword
  || match s with
     | EmptyString => false
     | String _ s' => contains_i keyword s'
     end.

(** The first entry of a configuration that is hit decides; ["Other"]
    when none is. *)
Definition first_match_spec {A} (hit : A -> bool) (config : list (string * A))
    (result : string) : Prop :=
  (exists before category a after,
      config = before ++ (category, a) :: after
      /\ Forall (fun ca => hit (snd ca) = false) before
      /\ hit a = true /\ result = category)
  \/ (Forall (fun ca => hit (snd ca) = false) config /\ result = "Other"%string).

(** The row that would report the same pair from the other side. *)
Definition mirror (r : Analyzer.Duplicate) : Analyzer.Duplicate :=
  Analyzer.mk_Duplicate
    (Analyzer.date2 r) (Analyzer.merchant2 r) (Analyzer.dup_amount r)
    (Analyzer.date1 r) (Analyzer.merchant1 r)
    (sub_days (Analyzer.date1 r) (Analyzer.date2 r)).

(** [r] occurs in [rows], as [drop_duplicates] compares rows. *)
Definition reported (rows : list Analyzer.Duplicate) (r : Analyzer.Duplicate) : Prop :=
  exists r', r' ∈ rows /\ Analyzer.same_row r' r = true.

(** Symmetry as the specification words it: whenever a pair is reported,
    the mirrored pair is reported too. *)
Definition symmetric_report (rows : list Analyzer.Duplicate) : Prop :=
  forall r, r ∈ rows -> reported rows (mirror r).

End Spec.

(** ** [expense_tracker/models.py] and [expense_tracker/categorizer.py]:
       the categories and their statistics *)

Module Expense.
Import Models.

(** [@dataclass class ExpenseCategory]. *)
Record ExpenseCategory := mk_ExpenseCategory {
  name : string;
  keywords : list string;
  total_amount : Q;
  transaction_count : nat
}.

(** [ExpenseCategory(name=name, keywords=keywords)] *)
Definition new_category (name : string) (keywords : list string) : ExpenseCategory :=
  mk_ExpenseCategory name keywords 0 0.

(** [ExpenseCategory.add_transaction] *)
Definition add_transaction (c : ExpenseCategory) (amount : Q) : ExpenseCategory :=
  mk_ExpenseCategory (name c) (keywords c) (total_amount c + Qabs amount)%Q
                     (S (transaction_count c)).

(** [ExpenseCategory.average_amount] *)
Definition average_amount (c : ExpenseCategory) : Q :=
  if (transaction_count c =? 0)%nat then 0%Q
  else (total_amount c / inject_Z (Z.of_nat (transaction_count c)))%Q.

(** [ExpenseCategorizer._initialize_categories]: [self.categories]. *)
Definition _initialize_categories : list (string * ExpenseCategory) :=
  map (fun nk => (fst nk, new_category (fst nk) (snd nk))) Categorizer.expense_categories.

(** The names and keywords the loops of [categorize_transaction] read. *)
Definition keyword_view (categories : list (string * ExpenseCategory))
  : list (string * list string) :=
  map (fun nc => (fst nc, keywords (snd nc))) categories.

(** [category in self.categories] *)
Definition has_key {V} (k : string) (d : list (string * V)) : bool :=
  existsb (fun kv => String.eqb (fst kv) k) d.

(** [d[k]], for a key that is there. *)
Fixpoint dict_get {V} (k : string) (d : list (string * V)) : option V :=
  match d with
  | [] => None
  | (k', v) :: d' => if String.eqb k' k then Some v else dict_get k d'
  end.

(** [d[k].m(...)] for a method [m] that changes the object [d[k]]. *)
Fixpoint dict_adjust {V} (f : V -> V) (k : string) (d : list (string * V))
  : list (string * V) :=
  match d with
  | [] => []
  | (k', v) :: d' =>
      if String.eqb k' k then (k', f v) :: d' else (k', v) :: dict_adjust f k d'
  end.

(** [transaction.category = category] for the object at [l]. *)
Definition set_category (c : string) (t : Transaction) : Transaction :=
  mk_Transaction (date t) (description t) (amount t) c (is_anomaly t).

Definition assign_category (h : heap) (l : loc) (c : string) : heap :=
  update h l (set_category c (h l)).

(** One iteration of the loop of [categorize_transactions]. *)
Definition categorize_step (st : heap * list (string * ExpenseCategory)) (l : loc)
  : heap * list (string * ExpenseCategory) :=
  let '(h, categories) := st in
  let category := Categorizer.expense_categorize_transaction (keyword_view categories) (h l) in
  let h' := assign_category h l category in
  if has_key category categories
  then (h', dict_adjust (fun c => add_transaction c (amount (h' l))) category categories)
  else (h', categories).

(** [ExpenseCategorizer.categorize_transactions] *)
Definition categorize_transactions (categories : list (string * ExpenseCategory))
    (h : heap) (transactions : list loc) : heap * list (string * ExpenseCategory) :=
  fold_left categorize_step transactions (h, categories).

(** One value of the dictionary [get_category_summary] returns. *)
Record SummaryRow := mk_SummaryRow {
  s_total_amount : Q; s_transaction_count : nat; s_average_amount : Q
}.

(** [ExpenseCategorizer.get_category_summary] *)
Definition get_category_summary (categories : list (string * ExpenseCategory))
  : list (string * SummaryRow) :=
  omap (fun nc =>
          let category := snd nc in
          if (0 <? transaction_count category)%nat
          then Some (fst nc, mk_SummaryRow (Py.round (total_amount category) 2)
                                           (transaction_count category)
                                           (Py.round (average_amount category) 2))
          else None)
       categories.

(** [ExpenseCategorizer.add_custom_category] *)
Definition add_custom_category (categories : list (string * ExpenseCategory))
    (name : string) (keywords : list string) : list (string * ExpenseCategory) :=
  Categorizer.dict_set name (new_category name keywords) categories.

End Expense.

(** ** [categorizer.py]: the keyword lists as shared objects *)

(** [TransactionCategorizer] with its lists of keywords as the objects they
    are: [CATEGORY_KEYWORDS.copy()] is a new dictionary holding the same
    list objects as the class attribute, and [extend] changes a list in
    place. *)

Module KeywordStore.
Import Expense Categorizer.

(** References to list objects, and the store of their contents. *)
Definition lref := nat.
Definition lists := lref -> list string.

(** The class attribute [CATEGORY_KEYWORDS]: the [i]-th category holds
    the list object [i]. *)
Definition CLASS_KEYWORDS : list (string * lref) :=
  imap (fun i ck => (fst ck, i)) CATEGORY_KEYWORDS.

(** The store when the module has just been loaded. *)
Definition loaded : lists := fun r => nth r (map snd CATEGORY_KEYWORDS) [].

(** An instance: [self.categories] and [self.category_patterns]. *)
Record categorizer := mk_categorizer {
  self_categories : list (string * lref);
  category_patterns : list (string * Re.regex)
}.

(** The dictionary of keyword lists an instance sees in the store [s]. *)
Definition contents (s : lists) (d : list (string * lref)) : list (string * list string) :=
  map (fun nr => (fst nr, s (snd nr))) d.

(** [__init__]; the custom lists are objects of the caller. *)
Definition init (s : lists) (custom_categories : list (string * lref)) : categorizer :=
  let categories := dict_update CLASS_KEYWORDS custom_categories in
  mk_categorizer categories (_compile_patterns (contents s categories)).

(** [add_custom_category] *)
Definition add_custom_category (s : lists) (c : categorizer)
    (category_name : string) (keywords : lref) : categorizer :=
  let categories := dict_set category_name keywords (self_categories c) in
  mk_categorizer categories (_compile_patterns (contents s categories)).

(** [update_category_keywords]: [self.categories[name].extend(keywords)]
    writes to the list object itself. *)
Definition update_category_keywords (s : lists) (c : categorizer)
    (category_name : string) (keywords : lref) : lists * categorizer :=
  match dict_get category_name (self_categories c) with
  | Some r =>
      let s' : lists := fun r' => if (r' =? r)%nat then s r ++ s keywords else s r' in
      (s', mk_categorizer (self_categories c)
                          (_compile_patterns (contents s' (self_categories c))))
  | None => (s, add_custom_category s c category_name keywords)
  end.

(** [categorize_transaction] of an instance. *)
Definition categorize (c : categorizer) (merchant description : string) : string :=
  categorize_transaction (category_patterns c) merchant description.

End KeywordStore.

(** ** What a pattern can match *)

Module ReFacts.
Import Re.

(** All characters. *)
Definition all_ascii : list ascii := map ascii_of_nat (seq 0 256).

(** Every match of [r] goes over a character of the class [P]. *)
Fixpoint must (P : ascii -> bool) (r : regex) : bool :=
  match r with
  | Eps | Bol | Eol | Star _ => false
  | Chr p => forallb (fun c => implb (p c) (P c)) all_ascii
  | Seq r1 r2 => must P r1 || must P r2
  | Alt r1 r2 => must P r1 && must P r2
  end.

(** [r] matches at every offset, possibly the empty text. *)
Fixpoint total (r : regex) : bool :=
  match r with
  | Eps | Star _ => true
  | Seq r1 r2 => total r1 && total r2
  | Alt r1 r2 => total r1 || total r2
  | Chr _ | Bol | Eol => false
  end.

(** [r] matches at a text that starts with [c], whatever follows. *)
Fixpoint accepts_first (c : ascii) (r : regex) : bool :=
  match r with
  | Chr p => p c
  | Seq r1 r2 => accepts_first c r1 && total r2
  | Alt r1 r2 => accepts_first c r1 || accepts_first c r2
  | Eps | Star _ | Bol | Eol => false
  end.

(** [s] has a character of the class [P] at one of the offsets
    [lo <= i < hi]. *)
Definition has_between (P : ascii -> bool) (s : string) (lo hi : nat) : Prop :=
  exists i c, (lo <= i < hi)%nat /\ String.get i s = Some c /\ P c = true.

End ReFacts.

(** ** Vocabulary of the further properties *)

Section DetectorVocabulary.
Import Models AnomalyDetector.

(** The absolute amounts of the transactions of one category, in list
    order. *)
Definition amounts_of (h : heap) (ts : list loc) (c : string) : list Q :=
  map (fun l => Qabs (amount (h l))) (filter (fun l => category (h l) = c) ts).

(** The effect of a detector that, run on [ts] in the store [h], returns
    [res] and leaves [h']: [res] holds transactions of [ts] only, and the
    records of [h'] are those of [h], with the flag also set for the
    transactions of [res]. *)
Definition flags_only (h : heap) (ts : list loc) (h' : heap) (res : list loc) : Prop :=
  (forall l, l ∈ res -> l ∈ ts)
  /\ (forall l, h' l = set_is_anomaly (is_anomaly (h l) || bool_decide (l ∈ res)) (h l)).

End DetectorVocabulary.

Section ExpenseVocabulary.
Import Models Expense.

(** The category [ExpenseCategorizer] finds for a record. *)
Definition category_for (categories : list (string * ExpenseCategory))
    (t : Transaction) : string :=
  Categorizer.expense_categorize_transaction (keyword_view categories) t.

(** The amounts of the entries of [ts] that fall into category [n]. *)
Definition amounts_in (categories : list (string * ExpenseCategory))
    (h : heap) (ts : list loc) (n : string) : list Q :=
  map (fun l => amount (h l)) (filter (fun l => category_for categories (h l) = n) ts).

End ExpenseVocabulary.

Section ParserVocabulary.
Import TransactionParser.

(** The characters [_parse_amount] reads: digits, points and minus
    signs. *)
Definition amount_char (c : ascii) : bool :=
  Py.is_digit c || Ascii.eqb c "." || Ascii.eqb c "-".

(** The characters of a class, in order. *)
Fixpoint keep (p : ascii -> bool) (s : string) : string :=
  match s with
  | EmptyString => EmptyString
  | String c s' => if p c then String c (keep p s') else keep p s'
  end.

(** The date of a row as the sort reads it. *)
Definition date_key (r : Row) : Q := inject_Z (Datetime.to_micro (date r)).

(** A word: not empty and without white space. *)
Fixpoint no_space (w : string) : bool :=
  match w with
  | EmptyString => true
  | String c w' => negb (Py.is_space c) && no_space w'
  end.

Definition word (w : string) : Prop := w <> EmptyString /\ no_space w = true.

End ParserVocabulary.

(** A store in which the caller holds one more list. *)
Definition with_list (keywords : list string) : KeywordStore.lists :=
  fun r => if (r =? 16)%nat then keywords else KeywordStore.loaded r.

(** * Properties *)

Section DetectorFacts.
Import Models AnomalyDetector.

Lemma set_is_anomaly_same t : set_is_anomaly (is_anomaly t) t = t.
Proof. by destruct t. Qed.

Lemma assign_lookup h l b l' :
  assign_is_anomaly h l b l' =
  if decide (l' = l) then set_is_anomaly b (h l) else h l'.
Proof.
  unfold assign_is_anomaly, update.
  destruct (Nat.eqb_spec l' l); case_decide; congruence.
Qed.

Lemma mark_all_lookup ls : forall h l,
  mark_all h ls l = set_is_anomaly (is_anomaly (h l) || bool_decide (l ∈ ls)) (h l).
Proof.
  induction ls as [|a ls IH]; intros h l; simpl.
  - rewrite orb_false_r. by rewrite set_is_anomaly_same.
  - rewrite IH, assign_lookup. case_decide as E.
    + subst a. simpl. rewrite bool_decide_eq_true_2 by (apply elem_of_cons; auto).
      by rewrite orb_true_r.
    + rewrite (bool_decide_ext (l ∈ a :: ls) (l ∈ ls)); [done|]. rewrite elem_of_cons. intuition.
Qed.
End DetectorFacts.

Section StatisticalDetector.
Import Models AnomalyDetector Spec.
Variable ext : Externals.

Lemma statistical_flag_assign bs h a b l :
  statistical_flag bs (assign_is_anomaly h a b) l = statistical_flag bs h l.
Proof.
  unfold statistical_flag. rewrite assign_lookup. by case_decide; subst.
Qed.

Lemma statistical_step_spec bs h acc l :
  statistical_step bs (h, acc) l =
  if statistical_flag bs h l then (assign_is_anomaly h l true, acc ++ [l]) else (h, acc).
Proof.
  unfold statistical_step, statistical_flag.
  destruct (bs !! category (h l)) as [stats|]; [|done].
  by destruct (zscore_test _ _), (iqr_test _ _).
Qed.

Lemma statistical_loop bs ts : forall h acc,
  fold_left (statistical_step bs) ts (h, acc) =
  (mark_all h (filter (fun l => statistical_flag bs h l = true) ts),
   acc ++ filter (fun l => statistical_flag bs h l = true) ts).
Proof.
  induction ts as [|l ts IH]; intros h acc; cbn [fold_left].
  - by rewrite app_nil_r.
  - rewrite statistical_step_spec.
    destruct (statistical_flag bs h l) eqn:E.
    + rewrite IH, filter_cons_True by done. cbn [mark_all fold_left].
      rewrite <- app_assoc. cbn [app].
      rewrite (list_filter_iff _ (fun l => statistical_flag bs h l = true)); [done|].
      intros x. by rewrite statistical_flag_assign.
    + rewrite IH, filter_cons_False; [done|]. by rewrite E.
Qed.
End StatisticalDetector.

Section StatisticalClaims.
Import Models AnomalyDetector Spec.
Variable ext : Externals.

Lemma Qltb_lt x y : Py.Qltb x y = true <-> (x < y)%Q.
Proof.
  unfold Py.Qltb. rewrite negb_true_iff, <- not_true_iff_false, Qle_bool_iff.
  split; [apply Qnot_le_lt | apply Qlt_not_le].
Qed.


Lemma iqr_test_spec stats a : iqr_test stats a = true <-> outside_fence stats a.
Proof.
  unfold iqr_test, outside_fence. cbv zeta. by rewrite orb_true_iff, !Qltb_lt.
Qed.


Lemma detect_statistical_unfold bs h ts :
  detect_statistical_anomalies ext bs h ts =
  let bs' := if decide (bs = ∅) then calculate_baseline_stats ext bs h ts else bs in
  (bs', mark_all h (filter (fun l => statistical_flag bs' h l = true) ts),
   filter (fun l => statistical_flag bs' h l = true) ts).
Proof.
  unfold detect_statistical_anomalies. cbv zeta. by rewrite statistical_loop.
Qed.


(** C9. A transaction whose category has no entry in a baseline computed
    beforehand is not in the list the statistical detector returns, and
    its record is left as it was, whatever its amount. *)
Theorem statistical_detector_skips_unknown_category
    (bs : gmap string Stats) (h : heap) (ts : list loc) (l : loc) :
  bs <> ∅ ->
  bs !! category (h l) = None ->
  let '(bs', h', anomalies) := detect_statistical_anomalies ext bs h ts in
  bs' = bs /\ ~ l ∈ anomalies /\ h' l = h l.
Proof.
  intros Hne Hnone. rewrite detect_statistical_unfold. cbv zeta.
  rewrite decide_False by done.
  assert (Hn : ~ l ∈ filter (fun l => statistical_flag bs h l = true) ts).
  { intros Hl. apply list_elem_of_filter in Hl as [Hf _].
    unfold statistical_flag in Hf. by rewrite Hnone in Hf. }
  repeat split; [done|].
  rewrite mark_all_lookup, bool_decide_eq_false_2 by done.
  by rewrite orb_false_r, set_is_anomaly_same.
Qed.

(** C2, as the code has it. When Q1 and Q3 of a baseline entry
    coincide, the IQR test flags exactly the amounts that differ from
    that common value. *)
Theorem degenerate_iqr_flags_all_but_q1 (stats : Stats) (a : Q) :
  (q1 stats == q3 stats)%Q ->
  (iqr_test stats a = true <-> ~ (a == q1 stats)%Q).
Proof.
  intros Heq. rewrite iqr_test_spec. unfold outside_fence.
  assert (E1 : (q1 stats - 1.5 * (q3 stats - q1 stats) == q1 stats)%Q).
  { rewrite <- Heq. ring. }
  assert (E2 : (q3 stats + 1.5 * (q3 stats - q1 stats) == q1 stats)%Q).
  { rewrite <- Heq. ring. }
  rewrite E1, E2. split.
  - intros [H|H] E; rewrite E in H; exact (Qlt_irrefl _ H).
  - intros Hne. destruct (Q_dec a (q1 stats)) as [[H|H]|H]; [by left|by right|done].
Qed.
End StatisticalClaims.

Section FrequencyDetector.
Import Models AnomalyDetector Spec.
Variable ext : Externals.

Lemma frequency_inv_init h0 : frequency_inv h0 (h0, []).
Proof.
  split; [|split]; simpl.
  - intros l. by rewrite orb_false_r, set_is_anomaly_same.
  - constructor.
  - intros l Hl. by apply elem_of_nil in Hl.
Qed.

Lemma flag_once_inv h0 st l : frequency_inv h0 st -> frequency_inv h0 (flag_once st l).
Proof.
  destruct st as [h acc]. intros (Hh & Hnd & Hf). unfold flag_once. simpl in *.
  destruct (is_anomaly (h l)) eqn:E; [by repeat split|].
  rewrite Hh in E. simpl in E. apply orb_false_iff in E as [E1 E2].
  apply bool_decide_eq_false in E2.
  split; [|split]; simpl.
  - intros l'. rewrite assign_lookup. case_decide as D.
    + subst l'. rewrite Hh. simpl. rewrite E1.
      rewrite (bool_decide_eq_true_2 (l ∈ acc ++ [l])); [done|].
      apply elem_of_app. right. by apply list_elem_of_singleton.
    + rewrite Hh. f_equal. f_equal. apply bool_decide_ext.
      rewrite elem_of_app, list_elem_of_singleton. intuition.
  - apply NoDup_app. split; [done|]. split; [|apply NoDup_singleton].
    intros x Hx Hx'. apply list_elem_of_singleton in Hx'. by subst.
  - intros l' Hl'. apply elem_of_app in Hl' as [Hl'|Hl']; [by apply Hf|].
    apply list_elem_of_singleton in Hl'. by subst.
Qed.

Lemma frequency_pairs_inv h0 avg diffs : forall trans_list st,
  frequency_inv h0 st -> frequency_inv h0 (frequency_pairs avg diffs trans_list st).
Proof.
  induction diffs as [|diff diffs IH]; intros trans_list st Hst; [done|].
  destruct trans_list as [|a [|b rest]]; [done..|].
  cbn [frequency_pairs]. apply IH.
  destruct (_ && _); [|done]. by do 2 apply flag_once_inv.
Qed.

Lemma frequency_group_inv h0 st group :
  frequency_inv h0 st -> frequency_inv h0 (frequency_group ext st group).
Proof.
  intros Hst. unfold frequency_group.
  destruct (_ <? 2)%nat; [done|]. cbv zeta.
  destruct (time_diffs _ _) eqn:E; [done|]. by apply frequency_pairs_inv.
Qed.

Lemma detect_frequency_inv h ts :
  frequency_inv h (detect_frequency_anomalies ext h ts).
Proof.
  unfold detect_frequency_anomalies.
  generalize (merchant_transactions h ts), (frequency_inv_init h).
  generalize (h, @nil loc) at 1 2.
  intros st groups. revert st.
  induction groups as [|g groups IH]; intros st Hst; [done|].
  cbn [fold_left]. by apply IH, frequency_group_inv.
Qed.

(** C10. The list the frequency detector returns has no repetition; a
    transaction whose flag was already set when the detector ran is
    absent from it, whatever pair it belongs to, and its record, flag
    included, is left as it was; the flags that are set are those of the
    list.  Hence setting beforehand the flag of a transaction the
    detector would report changes the list it returns. *)
Theorem frequency_detector_omits_flagged (h : heap) (ts : list loc) :
  let '(h', anomalies) := detect_frequency_anomalies ext h ts in
  NoDup anomalies
  /\ (forall l, is_anomaly (h l) = true -> ~ l ∈ anomalies /\ h' l = h l)
  /\ (forall l, is_anomaly (h' l) = is_anomaly (h l) || bool_decide (l ∈ anomalies))
  /\ (forall l, l ∈ anomalies ->
        snd (detect_frequency_anomalies ext (assign_is_anomaly h l true) ts) <> anomalies).
Proof.
  pose proof (detect_frequency_inv h ts) as (Hh & Hnd & Hf).
  destruct (detect_frequency_anomalies ext h ts) as [h' anomalies] eqn:E.
  simpl in *. split; [done|]. split; [|split].
  - intros l Hl.
    assert (Hn : ~ l ∈ anomalies) by (intros Hin; apply Hf in Hin; congruence).
    split; [done|]. rewrite Hh, Hl. simpl. by rewrite <- Hl, set_is_anomaly_same.
  - intros l. by rewrite Hh.
  - intros l Hl Heq.
    pose proof (detect_frequency_inv (assign_is_anomaly h l true) ts) as (_ & _ & Hf').
    rewrite Heq in Hf'. specialize (Hf' l Hl).
    rewrite assign_lookup, decide_True in Hf' by done. done.
Qed.
End FrequencyDetector.

Section MLDetector.
Import Models AnomalyDetector Spec.
Variable ext : Externals.
Variable contamination : Q.

Lemma mark_all_app h ls1 ls2 : mark_all h (ls1 ++ ls2) = mark_all (mark_all h ls1) ls2.
Proof. apply fold_left_app. Qed.

Lemma ml_loop_spec ts predictions : forall rest i h0 acc,
  drop i ts = rest ->
  (length predictions <= length rest)%nat ->
  ml_loop ts i predictions (mark_all h0 acc, acc) =
  Some (mark_all h0 (acc ++ outliers rest predictions), acc ++ outliers rest predictions).
Proof.
  induction predictions as [|p ps IH]; intros rest i h0 acc Hd Hlen.
  - destruct rest; simpl; by rewrite app_nil_r.
  - destruct rest as [|l rest]; [simpl in Hlen; lia|].
    assert (Hi : ts !! i = Some l).
    { rewrite <- (Nat.add_0_r i), <- lookup_drop, Hd. done. }
    assert (Hd' : drop (S i) ts = rest).
    { rewrite (drop_S _ _ _ Hi) in Hd. congruence. }
    simpl in Hlen. cbn [ml_loop outliers fst snd].
    destruct (p =? -1).
    + rewrite Hi.
      replace (assign_is_anomaly (mark_all h0 acc) l true) with (mark_all h0 (acc ++ [l]))
        by (by rewrite mark_all_app).
      rewrite (IH rest (S i) h0 (acc ++ [l])) by (done || lia).
      by rewrite <- app_assoc.
    + apply IH; [done | lia].
Qed.

(** C6. With fewer than 10 transactions the detector returns the empty
    list and leaves the store as it is, without consulting the model;
    with 10 or more, the model giving one label per transaction, it
    returns the transactions labelled -1, in order, and sets the flag of
    each of them. *)
Theorem ml_detector_small_sample_or_model (h : heap) (ts : list loc) :
  (length ts < 10)%nat
  \/ length (fit_predict ext contamination (fit_transform ext (features ext h ts)))
     = length ts ->
  detect_ml_anomalies ext contamination h ts =
  if (length ts <? 10)%nat then Some (h, [])
  else
    let labelled :=
      outliers ts (fit_predict ext contamination (fit_transform ext (features ext h ts))) in
    Some (mark_all h labelled, labelled).
Proof.
  intros Hlen. unfold detect_ml_anomalies.
  destruct (Nat.ltb_spec (length ts) 10); [done|]. cbv zeta.
  destruct Hlen as [Hlen|Hlen]; [lia|].
  apply (ml_loop_spec ts _ ts 0%nat h []); [done | lia].
Qed.
End MLDetector.

Section Sorting.
Import Spec.
Context {A : Type} (key : A -> Q).

Lemma insert_desc_perm x l : Permutation (Py.insert_desc key x l) (x :: l).
Proof.
  induction l as [|y l IH]; simpl; [done|].
  destruct (Py.Qltb (key x) (key y)); [|done].
  rewrite IH. apply perm_swap.
Qed.

Lemma sorted_desc_perm l : Permutation (Py.sorted_desc key l) l.
Proof.
  induction l as [|x l IH]; simpl; [done|].
  rewrite insert_desc_perm. by constructor.
Qed.

Lemma insert_desc_sorted x l :
  StronglySorted (desc key) l -> StronglySorted (desc key) (Py.insert_desc key x l).
Proof.
  induction 1 as [|y l Hs IH Hy]; simpl.
  - repeat constructor.
  - destruct (Py.Qltb (key x) (key y)) eqn:E.
    + constructor; [done|].
      rewrite insert_desc_perm. constructor; [|done].
      apply Qltb_lt in E. unfold desc. by apply Qlt_le_weak.
    + assert (Hxy : desc key x y).
      { unfold desc. apply Qnot_lt_le. intros H. apply Qltb_lt in H. congruence. }
      constructor; [by constructor|].
      constructor; [done|].
      eapply Forall_impl; [exact Hy|]. intros z Hz. unfold desc in *.
      by apply Qle_trans with (key y).
Qed.

Lemma sorted_desc_sorted l : StronglySorted (desc key) (Py.sorted_desc key l).
Proof.
  induction l as [|x l IH]; simpl; [constructor | by apply insert_desc_sorted].
Qed.
End Sorting.

Section Summary.
Import Models AnomalyDetector Spec.
Variable ext : Externals.
Variable contamination : Q.


Lemma reset_flags_lookup ts : forall h l,
  reset_flags h ts l =
  if bool_decide (l ∈ ts) then set_is_anomaly false (h l) else h l.
Proof.
  induction ts as [|a ts IH]; intros h l; [done|].
  cbn [reset_flags fold_left]. fold (reset_flags (assign_is_anomaly h a false) ts).
  rewrite IH, assign_lookup.
  destruct (decide (l = a)) as [->|Hne].
  - rewrite (bool_decide_eq_true_2 (a ∈ a :: ts)) by (apply elem_of_cons; auto).
    by case_bool_decide.
  - rewrite (bool_decide_ext (l ∈ a :: ts) (l ∈ ts)); [done|].
    rewrite elem_of_cons. intuition.
Qed.

End Summary.

Section Serialization.
Import Datetime Models.

Lemma append_cons x (a b : string) : String x a +:+ b = String x (a +:+ b).
Proof. reflexivity. Qed.

Lemma append_empty_l (a : string) : "" +:+ a = a.
Proof. reflexivity. Qed.

Lemma append_assoc (a b c : string) : (a +:+ b) +:+ c = a +:+ (b +:+ c).
Proof.
  induction a as [|x a IH]; [done|]. by rewrite !append_cons, IH.
Qed.

Lemma append_empty_r (a : string) : a +:+ "" = a.
Proof.
  induction a as [|x a IH]; [done|]. by rewrite append_cons, IH.
Qed.

Ltac step_parser :=
  rewrite ?append_cons, ?append_empty_l;
  cbn [mbind option_bind expect];
  rewrite ?Ascii.eqb_refl;
  cbn [mbind option_bind].

Lemma digit_roundtrip (m : Z) :
  0 <= m < 10 -> Py.is_digit (Py.digit m) = true /\ Py.digit_val (Py.digit m) = m.
Proof.
  intros Hm.
  assert (m = 0 \/ m = 1 \/ m = 2 \/ m = 3 \/ m = 4 \/ m = 5 \/ m = 6 \/ m = 7
          \/ m = 8 \/ m = 9) as Hcases by lia.
  repeat (destruct Hcases as [-> | Hcases]; [by vm_compute|]). by subst.
Qed.

Lemma read_digits_snoc k : forall acc s,
  Py.read_digits (S k) acc s =
  Py.read_digits k acc s ≫= fun '(a, r) => Py.read_digits 1 a r.
Proof.
  induction k as [|k IH]; intros acc s; [done|].
  change (Py.read_digits (S (S k)) acc s)
    with (match s with
          | String c s' =>
              if Py.is_digit c then Py.read_digits (S k) (acc * 10 + Py.digit_val c) s'
              else None
          | EmptyString => None
          end).
  destruct s as [|c s]; [done|]. simpl.
  destruct (Py.is_digit c); [|done]. apply IH.
Qed.

Lemma read_digits_zfill k : forall n acc rest,
  0 <= n < 10 ^ Z.of_nat k ->
  Py.read_digits k acc (Py.zfill k n +:+ rest) = Some (acc * 10 ^ Z.of_nat k + n, rest).
Proof.
  induction k as [|k IH]; intros n acc rest Hn.
  - simpl in *. f_equal. f_equal. lia.
  - rewrite Nat2Z.inj_succ, Z.pow_succ_r in * by lia.
    rewrite read_digits_snoc. cbn [Py.zfill]. rewrite append_assoc.
    rewrite IH by (split; [apply Z.div_pos; lia | apply Z.div_lt_upper_bound; lia]).
    step_parser. cbn [Py.read_digits].
    destruct (digit_roundtrip (n mod 10)) as [-> ->]; [apply Z.mod_pos_bound; lia|].
    f_equal. f_equal. pose proof (Z.div_mod n 10). lia.
Qed.

Lemma valid_fields d :
  valid d = true ->
  0 <= year d < 10 ^ Z.of_nat 4 /\ 0 <= month d < 10 ^ Z.of_nat 2
  /\ 0 <= day d < 10 ^ Z.of_nat 2 /\ 0 <= hour d < 10 ^ Z.of_nat 2
  /\ 0 <= minute d < 10 ^ Z.of_nat 2 /\ 0 <= second d < 10 ^ Z.of_nat 2
  /\ 0 <= microsecond d < 10 ^ Z.of_nat 6.
Proof.
  unfold valid. rewrite !andb_true_iff. intros H.
  assert (days_in_month (year d) (month d) <= 31).
  { unfold days_in_month. repeat case_match; lia. }
  change (10 ^ Z.of_nat 4) with 10000. change (10 ^ Z.of_nat 2) with 100.
  change (10 ^ Z.of_nat 6) with 1000000. lia.
Qed.

Lemma fromisoformat_isoformat d : valid d = true -> fromisoformat (isoformat d) = Some d.
Proof.
  intros Hv. destruct (valid_fields d Hv) as (Hy & Hm & Hd & Hh & Hmi & Hs & Hus).
  assert (Hd' : checked d = Some d) by (unfold checked; by rewrite Hv).
  unfold isoformat, strftime_ymd, fromisoformat, parse_time.
  rewrite !append_assoc.
  do 6 (rewrite read_digits_zfill by done; step_parser).
  destruct (Z.eqb_spec (microsecond d) 0) as [E|E].
  - destruct d; simpl in *; subst. by rewrite !Z.add_0_l in *.
  - step_parser. unfold parse_fraction.
    rewrite <- (append_empty_r (Py.zfill 6 _)).
    rewrite read_digits_zfill by done.
    destruct d; simpl in *. by rewrite !Z.add_0_l in *.
Qed.

(** C8. A transaction goes to a record whose date is the [isoformat]
    text, and reading that record back gives the transaction again: the
    same date, description, amount, category and flag. *)
Theorem from_dict_to_dict (t : Transaction) :
  valid (date t) = true ->
  to_dict t !! "date"%string = Some (PStr (isoformat (date t)))
  /\ from_dict (to_dict t) = Some t.
Proof.
  intros Hv. split; [done|].
  unfold from_dict, to_dict.
  rewrite lookup_insert_eq. cbn [mbind option_bind].
  rewrite fromisoformat_isoformat by done. cbn [mbind option_bind].
  rewrite bool_decide_eq_true_2.
  - repeat (rewrite lookup_insert_ne by done). rewrite !lookup_insert_eq.
    repeat (rewrite lookup_insert_ne by done). rewrite !lookup_insert_eq.
    cbn. by destruct t.
  - rewrite !dom_insert_L. unfold fields. set_solver.
Qed.
End Serialization.

Section CategorizerFacts.
Import Categorizer Spec.

Lemma run_lit_i {R} keyword : forall pos s (k : nat -> string -> option R),
  Re.run (Re.lit_i keyword) pos s k =
  if startswith_i s keyword
  then k (pos + String.length keyword)%nat (Re.drop (String.length keyword) s)
  else None.
Proof.
  induction keyword as [|a keyword IH]; intros pos s k.
  - simpl. by rewrite Nat.add_0_r; destruct s.
  - cbn [Re.lit_i Re.run startswith_i String.length Re.drop].
    destruct s as [|b s]; [done|]. cbn [startswith_i].
    destruct (Ascii.eqb _ _); cbn [andb]; [|done]. rewrite IH.
    by rewrite Nat.add_succ_r.
Qed.

Lemma match_at_keywords keywords pos s :
  keywords <> [] ->
  is_Some (Re.match_at (Re.alts (map Re.lit_i keywords)) pos s)
  <-> existsb (startswith_i s) keywords = true.
Proof.
  unfold Re.match_at.
  induction keywords as [|kw keywords IH]; intros Hne; [done|].
  destruct keywords as [|kw' keywords].
  - cbn [map Re.alts existsb]. rewrite run_lit_i, orb_false_r.
    destruct (startswith_i s kw); [by split; eauto | by split; [intros [? ?]|]].
  - cbn [map Re.alts existsb Re.run] in *. rewrite run_lit_i.
    destruct (startswith_i s kw); [by split; eauto|].
    cbn [orb]. by apply IH.
Qed.

Lemma contains_i_unfold keyword s :
  contains_i keyword s =
  startswith_i s keyword
  || match s with EmptyString => false | String _ s' => contains_i keyword s' end.
Proof. by destruct s. Qed.

Lemma existsb_pointwise {A} (f g : A -> bool) l :
  (forall x, f x = g x) -> existsb f l = existsb g l.
Proof. intros H. induction l as [|x l IH]; [done|]. simpl. by rewrite H, IH. Qed.

Lemma existsb_orb {A} (f g : A -> bool) l :
  existsb (fun x => f x || g x) l = existsb f l || existsb g l.
Proof.
  induction l as [|x l IH]; [done|]. simpl. rewrite IH.
  destruct (f x), (g x), (existsb f l), (existsb g l); done.
Qed.

Lemma search_keywords keywords s : forall pos,
  keywords <> [] ->
  is_Some (Re.search_from (Re.alts (map Re.lit_i keywords)) pos s)
  <-> existsb (fun kw => contains_i kw s) keywords = true.
Proof.
  induction s as [|c s IH]; intros pos Hne.
  - cbn [Re.search_from]. pose proof (match_at_keywords keywords pos "" Hne) as Hm.
    destruct (Re.match_at _ pos "") as [e|].
    + split; [intros _|by eauto]. rewrite <- (proj1 Hm) by eauto.
      apply existsb_pointwise. intros kw. cbn. by rewrite orb_false_r.
    + split; [by intros [? ?]|]. intros H. exfalso.
      apply (is_Some_None (A:=nat)), (proj2 Hm).
      rewrite <- H. apply existsb_pointwise. intros kw. cbn. by rewrite orb_false_r.
  - cbn [Re.search_from].
    rewrite (existsb_pointwise _ (fun kw => startswith_i (String c s) kw || contains_i kw s) keywords)
      by (intros kw; apply contains_i_unfold).
    rewrite existsb_orb, orb_true_iff.
    pose proof (match_at_keywords keywords pos (String c s) Hne) as Hm.
    destruct (Re.match_at _ pos (String c s)) as [e|].
    + split; [intros _; left; apply Hm; eauto | eauto].
    + rewrite IH by done. split; [by right|]. intros [H|H]; [|done].
      apply Hm in H. by destruct H.
Qed.

Lemma matches_keywords keywords text :
  matches (Re.alts (map Re.lit_i keywords)) text =
  match keywords with
  | [] => true
  | _ => existsb (fun kw => contains_i kw text) keywords
  end.
Proof.
  unfold matches, Re.search.
  destruct keywords as [|kw keywords]; [by destruct text|].
  pose proof (search_keywords (kw :: keywords) text 0%nat) as Hs.
  destruct (Re.search_from _ _ _) as [r|].
  - symmetry. apply Hs; [done | eauto].
  - symmetry. apply not_true_is_false. intros H. apply Hs in H; [|done].
    by destruct H.
Qed.

Lemma first_match_ok patterns text :
  first_match_spec (fun p => matches p text) patterns (first_match patterns text).
Proof.
  induction patterns as [|[c p] patterns IH]; cbn [first_match].
  - right. by split.
  - destruct (matches p text) eqn:E.
    + left. exists [], c, p, patterns. by repeat split.
    + destruct IH as [(before & c' & a & after & -> & Hb & Ha & Hr)|[Hall Hr]].
      * left. exists ((c, p) :: before), c', a, after. repeat split; try done.
        by constructor.
      * right. split; [by constructor | done].
Qed.

Lemma expense_first_match_ok categories text :
  first_match_spec (existsb (fun keyword => Py.contains keyword text)) categories
                   (expense_first_match categories text).
Proof.
  induction categories as [|[c kws] categories IH]; cbn [expense_first_match].
  - right. by split.
  - destruct (existsb _ kws) eqn:E.
    + left. exists [], c, kws, categories. by repeat split.
    + destruct IH as [(before & c' & a & after & -> & Hb & Ha & Hr)|[Hall Hr]].
      * left. exists ((c, kws) :: before), c', a, after. repeat split; try done.
        by constructor.
      * right. split; [by constructor | done].
Qed.

(** C4. The category returned is that of the first entry, in the order
    of the configuration, whose pattern is found in the lowercased
    ["merchant description"], and ["Other"] when there is none; a
    pattern compiled from a list of keywords is found exactly when one
    of the keywords occurs in the text (an empty list gives the empty
    pattern, found everywhere).  [ExpenseCategorizer] decides in the
    same way on the lowercased description.  With Groceries: walmart
    before Shopping: mart, "Walmart Supercenter" is in Groceries. *)
Theorem categorize_first_match_wins
    (patterns : list (string * Re.regex)) (config : list (string * list string))
    (merchant description : string) (t : Models.Transaction) :
  first_match_spec
    (fun p => matches p (Py.lower (merchant +:+ " " +:+ description)))
    patterns (categorize_transaction patterns merchant description)
  /\ first_match_spec
       (fun keywords =>
          match keywords with
          | [] => true
          | _ => existsb (fun kw => contains_i kw (Py.lower (merchant +:+ " " +:+ description)))
                         keywords
          end)
       config (categorize_transaction (_compile_patterns config) merchant description)
  /\ first_match_spec
       (existsb (fun keyword => Py.contains keyword (Py.lower (Models.description t))))
       config (expense_categorize_transaction config t)
  /\ categorize_transaction
       (_compile_patterns [("Groceries", ["walmart"]); ("Shopping", ["mart"])]%string)
       "Walmart Supercenter" "" = "Groceries"%string
  /\ categorize_transaction
       (_compile_patterns (categories [("Groceries", ["walmart"]); ("Shopping", ["mart"])]%string))
       "Walmart Supercenter" "" = "Groceries"%string.
Proof.
  split; [apply first_match_ok|]. split; [|split; [apply expense_first_match_ok|]].
  - unfold categorize_transaction, _compile_patterns. cbv zeta.
    set (text := Py.lower _). clearbody text.
    induction config as [|[c kws] config IH]; cbn [map first_match fst snd].
    + right. by split.
    + rewrite matches_keywords.
      destruct (match kws with [] => true | _ => _ end) eqn:E.
      * left. exists [], c, kws, config. by repeat split.
      * destruct IH as [(before & c' & a & after & -> & Hb & Ha & Hr)|[Hall Hr]].
        -- left. exists ((c, kws) :: before), c', a, after. repeat split; try done.
           by constructor.
        -- right. split; [by constructor | done].
  - split; by vm_compute.
Qed.
End CategorizerFacts.

Section ParserFacts.
Import TransactionParser.

(** C5, on the code. The amount pattern is searched from the start of
    the line, and its third alternative accepts the first digits of the
    date: the line gives one transaction, dated by the text 01/15/2024,
    whose payee is empty and whose amount is 1, not Amazon.com and
    45.99.  Its category is Shopping all the same, through the
    description, which is the whole line. *)
Theorem parse_line_takes_amount_from_date :
  let line := "01/15/2024  Amazon.com   $45.99"%string in
  Re.search date_regex line = Some (0, 10)%nat
  /\ Re.search amount_regex line = Some (0, 2)%nat
  /\ _parse_line line = Some (mk_Raw "01/15/2024" "" "01" line)
  /\ _parse_amount "01" = 1%Q
  /\ (forall dateutil_parse now,
        parse_transactions dateutil_parse now line =
        [mk_Row (_parse_date dateutil_parse now "01/15/2024") "" 1 line])
  /\ Categorizer.categorize_transaction
       (Categorizer._compile_patterns (Categorizer.categories [])) "" line
     = "Shopping"%string.
Proof. repeat split; by vm_compute. Qed.
End ParserFacts.

Section DuplicateFacts.
Import Datetime Analyzer Spec.

Lemma same_row_refl r : same_row r r = true.
Proof.
  unfold same_row. rewrite !Z.eqb_refl, !String.eqb_refl.
  by rewrite (proj2 (Qeq_bool_iff _ _) (Qeq_refl _)).
Qed.

Lemma same_row_spec a b :
  same_row a b = true <->
  to_micro (date1 a) = to_micro (date1 b) /\ merchant1 a = merchant1 b
  /\ (dup_amount a == dup_amount b)%Q
  /\ to_micro (date2 a) = to_micro (date2 b) /\ merchant2 a = merchant2 b
  /\ days_apart a = days_apart b.
Proof.
  unfold same_row.
  rewrite !andb_true_iff, !Z.eqb_eq, !String.eqb_eq, Qeq_bool_iff. tauto.
Qed.

Lemma same_row_trans a b c :
  same_row a b = true -> same_row b c = true -> same_row a c = true.
Proof.
  rewrite !same_row_spec. intros (?&?&?&?&?&?) (?&?&?&?&?&?).
  repeat split; try congruence. by apply Qeq_trans with (dup_amount b).
Qed.

Lemma drop_duplicates_subset rows r : r ∈ drop_duplicates rows -> r ∈ rows.
Proof.
  revert r. induction rows as [|x rows IH]; intros r; [done|].
  cbn [drop_duplicates]. rewrite !elem_of_cons, list_elem_of_filter.
  intros [->|[_ H]]; auto.
Qed.

Lemma drop_duplicates_covers rows r :
  r ∈ rows -> reported (drop_duplicates rows) r.
Proof.
  induction rows as [|x rows IH]; [by intros H; apply elem_of_nil in H|].
  rewrite elem_of_cons. cbn [drop_duplicates]. intros [->|Hr].
  - exists x. split; [apply elem_of_cons; auto | apply same_row_refl].
  - destruct (IH Hr) as (y & Hy & Hyr).
    destruct (same_row x y) eqn:E.
    + exists x. split; [apply elem_of_cons; auto | by apply same_row_trans with y].
    + exists y. split; [|done]. apply elem_of_cons. right.
      by apply list_elem_of_filter.
Qed.

Lemma ForallOrdPairs_filter {A} (R : A -> A -> Prop) (P : A -> Prop)
    `{forall x, Decision (P x)} l :
  ForallOrdPairs R l -> ForallOrdPairs R (filter P l).
Proof.
  induction 1 as [|x l Hx Hl IH]; [constructor|].
  destruct (decide (P x)).
  - rewrite filter_cons_True by done. constructor; [|done].
    apply List.Forall_forall. intros y Hy. apply list_elem_of_In in Hy.
    apply list_elem_of_filter in Hy as [_ Hy].
    rewrite List.Forall_forall in Hx. apply Hx. by apply list_elem_of_In.
  - by rewrite filter_cons_False.
Qed.

Lemma drop_duplicates_distinct rows :
  ForallOrdPairs (fun a b => same_row a b = false) (drop_duplicates rows).
Proof.
  induction rows as [|x rows IH]; [constructor|].
  cbn [drop_duplicates]. constructor.
  - apply List.Forall_forall. intros y Hy. apply list_elem_of_In in Hy.
    by apply list_elem_of_filter in Hy as [Hy _].
  - by apply ForallOrdPairs_filter.
Qed.
End DuplicateFacts.

Section DuplicateClaims.
Import Datetime Analyzer Spec.

Lemma insert_asc_elem {A} (key : A -> Z) x y l :
  y ∈ Py.insert_asc key x l <-> y = x \/ y ∈ l.
Proof.
  induction l as [|z l IH]; cbn [Py.insert_asc].
  - rewrite list_elem_of_singleton, elem_of_nil. tauto.
  - destruct (key z <? key x); rewrite !elem_of_cons; [rewrite IH|]; tauto.
Qed.

Lemma sort_asc_elem {A} (key : A -> Z) y l : y ∈ Py.sort_asc key l <-> y ∈ l.
Proof.
  induction l as [|x l IH]; [done|].
  cbn [Py.sort_asc foldr]. fold (Py.sort_asc key l).
  by rewrite insert_asc_elem, elem_of_cons, IH.
Qed.

(** The pairs found before [drop_duplicates]. *)
Lemma pairs_found df w r :
  r ∈ flat_map (fun row => map (pair_row row)
                  (filter (fun o => is_similar w row o = true) (sort_values df)))
               (sort_values df)
  <-> exists a b, a ∈ df /\ b ∈ df /\ is_similar w a b = true /\ r = pair_row a b.
Proof.
  rewrite list_elem_of_In, in_flat_map. split.
  - intros (a & Ha & Hr). apply list_elem_of_In, sort_asc_elem in Ha.
    apply list_elem_of_In, list_elem_of_fmap in Hr as (b & -> & Hb).
    apply list_elem_of_filter in Hb as [Hs Hb]. apply sort_asc_elem in Hb.
    by exists a, b.
  - intros (a & b & Ha & Hb & Hs & ->). exists a. split.
    + by apply list_elem_of_In, sort_asc_elem.
    + apply list_elem_of_In, list_elem_of_fmap. exists b. split; [done|].
      apply list_elem_of_filter. split; [done|]. by apply sort_asc_elem.
Qed.

Lemma is_similar_spec w a b :
  is_similar w a b = true <->
  (amount b == amount a)%Q
  /\ to_micro (date a) <= to_micro (date b) <= to_micro (date a) + w * one_day
  /\ index b <> index a.
Proof.
  unfold is_similar.
  rewrite !andb_true_iff, negb_true_iff, Qeq_bool_iff, !Z.leb_le, Nat.eqb_neq. tauto.
Qed.

(** C7, as the code has it. Every reported row pairs a transaction
    with another one (a different index label) of equal amount, dated
    from the first one's date to [time_window] days later; every such
    pair is reported; the mirrored row is in the result exactly when the
    two dates coincide; and no two rows of the result are equal. *)
Theorem duplicates_look_forward_only (df : list Row) (time_window : Z) :
  let result := find_duplicate_transactions df time_window in
  (forall r, r ∈ result ->
     (exists a b, a ∈ df /\ b ∈ df /\ index b <> index a
                  /\ (amount b == amount a)%Q /\ r = pair_row a b)
     /\ to_micro (date1 r) <= to_micro (date2 r)
        <= to_micro (date1 r) + time_window * one_day
     /\ (reported result (mirror r) <-> to_micro (date1 r) = to_micro (date2 r)))
  /\ (forall a b, a ∈ df -> b ∈ df -> is_similar time_window a b = true ->
        reported result (pair_row a b))
  /\ ForallOrdPairs (fun a b => same_row a b = false) result.
Proof.
  cbv zeta. unfold find_duplicate_transactions. cbv zeta.
  set (found := flat_map _ _).
  assert (Hfound : forall r, r ∈ found <->
            exists a b, a ∈ df /\ b ∈ df /\ is_similar time_window a b = true
                        /\ r = pair_row a b) by apply pairs_found.
  assert (Hwin : forall r, r ∈ drop_duplicates found ->
            to_micro (date1 r) <= to_micro (date2 r)
            <= to_micro (date1 r) + time_window * one_day).
  { intros r Hr. apply drop_duplicates_subset, Hfound in Hr
      as (a & b & _ & _ & Hs & ->). apply is_similar_spec in Hs.
    cbn [pair_row date1 date2]. tauto. }
  split; [|split].
  - intros r Hr. pose proof (Hwin r Hr) as Hw.
    apply drop_duplicates_subset, Hfound in Hr as (a & b & Ha & Hb & Hs & ->).
    pose proof Hs as Hs'. apply is_similar_spec in Hs' as (Hamt & Hdates & Hidx).
    split; [by exists a, b|]. split; [done|]. cbn [pair_row date1 date2] in *. split.
    + intros (r' & Hr' & Hsame). apply Hwin in Hr'.
      apply same_row_spec in Hsame as (H1 & _ & _ & H2 & _). cbn in H1, H2. lia.
    + intros Heq.
      assert (Hback : is_similar time_window b a = true).
      { apply is_similar_spec. split; [by symmetry|]. split; [lia | congruence]. }
      destruct (drop_duplicates_covers found (pair_row b a)) as (r' & Hr' & Hsame).
      { apply Hfound. by exists b, a. }
      exists r'. split; [done|]. apply same_row_trans with (pair_row b a); [done|].
      apply same_row_spec. by cbn.
  - intros a b Ha Hb Hs. apply drop_duplicates_covers, Hfound. by exists a, b.
  - apply drop_duplicates_distinct.
Qed.

(** C7 as worded fails: of two equal amounts one day apart, the pair is
    reported from the earlier transaction only. *)
Lemma duplicates_not_symmetric :
  let df := [ mk_Row 0 (Samples.on 2024 1 1) "Netflix" 15.99;
              mk_Row 1 (Samples.on 2024 1 2) "Netflix" 15.99 ]%string in
  find_duplicate_transactions df 1 =
    [ mk_Duplicate (Samples.on 2024 1 1) "Netflix" 15.99
                   (Samples.on 2024 1 2) "Netflix" 1 ]%string
  /\ ~ symmetric_report (find_duplicate_transactions df 1).
Proof.
  cbv zeta. split; [by vm_compute|].
  intros Hsym.
  destruct (Hsym (mk_Duplicate (Samples.on 2024 1 1) "Netflix" 15.99
                               (Samples.on 2024 1 2) "Netflix" 1))
    as (r' & Hr' & Hsame).
  - replace (find_duplicate_transactions _ 1) with
      [ mk_Duplicate (Samples.on 2024 1 1) "Netflix" 15.99
                     (Samples.on 2024 1 2) "Netflix" 1 ]%string by (by vm_compute).
    apply elem_of_cons. by left.
  - replace (find_duplicate_transactions _ 1) with
      [ mk_Duplicate (Samples.on 2024 1 1) "Netflix" 15.99
                     (Samples.on 2024 1 2) "Netflix" 1 ]%string in Hr' by (by vm_compute).
    apply list_elem_of_singleton in Hr' as ->. by vm_compute in Hsame.
Qed.
End DuplicateClaims.

Section Instances.
Import Datetime Models AnomalyDetector Spec.

(** C2 as worded fails: with Q1 = Q3 = 50 (and no spread, so that the
    z-score test is skipped) the IQR rule flags the amount 60. *)
Lemma degenerate_iqr_still_flags :
  q1 Samples.flat_rent = q3 Samples.flat_rent
  /\ iqr_test Samples.flat_rent 60 = true
  /\ snd (detect_statistical_anomalies Samples.ext {[ "Rent"%string := Samples.flat_rent ]}
            (Samples.heap_of Samples.rents) [0%nat]) = [0%nat].
Proof. repeat split; by vm_compute. Qed.

Lemma degenerate_iqr_flags_all_but_q1_witness :
  (q1 Samples.flat_rent == q3 Samples.flat_rent)%Q
  /\ (iqr_test Samples.flat_rent 60 = true <-> ~ (60 == q1 Samples.flat_rent)%Q).
Proof.
  split; [reflexivity|].
  apply (degenerate_iqr_flags_all_but_q1 Samples.flat_rent 60). reflexivity.
Defined.

Lemma statistical_detector_skips_unknown_category_witness :
  let h := Samples.heap_of
             [mk_Transaction (Samples.on 2024 1 1) "Landlord" 60 "Rent" false;
              mk_Transaction (Samples.on 2024 1 2) "Casino" 100000 "Leisure" false] in
  let '(bs', h', anomalies) :=
    detect_statistical_anomalies Samples.ext {[ "Rent"%string := Samples.flat_rent ]} h [0; 1]%nat in
  bs' = {[ "Rent"%string := Samples.flat_rent ]} /\ ~ 1%nat ∈ anomalies /\ h' 1%nat = h 1%nat.
Proof.
  cbv zeta.
  apply (statistical_detector_skips_unknown_category Samples.ext
           {[ "Rent"%string := Samples.flat_rent ]} _ [0; 1]%nat 1%nat).
  - apply insert_non_empty.
  - by vm_compute.
Defined.

Lemma ml_detector_small_sample_or_model_witness :
  detect_ml_anomalies Samples.ext 0.1 (Samples.heap_of Samples.rents) (seq 0 10) =
  Some (mark_all (Samples.heap_of Samples.rents) [7%nat], [7%nat]).
Proof.
  apply (ml_detector_small_sample_or_model Samples.ext 0.1 (Samples.heap_of Samples.rents) (seq 0 10)).
  right. reflexivity.
Defined.


Lemma from_dict_to_dict_witness :
  let t := mk_Transaction (mk_datetime 2024 1 15 9 30 0 250000) "Amazon.com" 45.99
                          "Shopping" true in
  to_dict t !! "date"%string = Some (PStr "2024-01-15T09:30:00.250000")
  /\ from_dict (to_dict t) = Some t.
Proof.
  cbv zeta. apply (from_dict_to_dict (mk_Transaction (mk_datetime 2024 1 15 9 30 0 250000)
                                        "Amazon.com" 45.99 "Shopping" true)).
  reflexivity.
Defined.

(** The frequency detector at work: two charges of one payee on the same
    day, a third one a month later. *)
Example frequency_detector_run :
  let h := Samples.heap_of
             [mk_Transaction (Samples.on 2024 1 1) "Netflix" 15 "Fun" false;
              mk_Transaction (Samples.on 2024 1 1) "Netflix" 15 "Fun" false;
              mk_Transaction (Samples.on 2024 2 1) "Netflix" 15 "Fun" false] in
  snd (detect_frequency_anomalies Samples.ext h [0; 1; 2]%nat) = [0; 1]%nat
  /\ snd (detect_frequency_anomalies Samples.ext (assign_is_anomaly h 0%nat true)
            [0; 1; 2]%nat) = [1%nat].
Proof. split; by vm_compute. Qed.

(** The summary of the rents after all detectors ran. *)
Example summary_run :
  match detect_all_anomalies Samples.ext 0.1 ∅ (Samples.heap_of Samples.rents) (seq 0 10) with
  | Some (_, h', results) =>
      statistical results = [7%nat] /\ ml_based results = [7%nat]
      /\ frequency results = []
      /\ anomaly_count (get_anomaly_summary h' (seq 0 10)) = 1%nat
      /\ anomaly_percentage (get_anomaly_summary h' (seq 0 10)) = 10.00%Q
  | None => False
  end.
Proof. by vm_compute. Qed.
End Instances.

(** * More of the detector: baseline, effects on the store, repeated runs *)

Section BaselineFacts.
Import Models AnomalyDetector Spec.
Variable ext : Externals.

Lemma category_data_snoc h ts l :
  category_data h (ts ++ [l]) =
  <[category (h l) :=
      default [] (category_data h ts !! category (h l)) ++ [Qabs (amount (h l))]]>
    (category_data h ts).
Proof. unfold category_data. by rewrite fold_left_app. Qed.

Lemma category_data_lookup h ts c :
  category_data h ts !! c =
  match amounts_of h ts c with
  | [] => None
  | amounts => Some amounts
  end.
Proof.
  induction ts as [|l ts IH] using rev_ind; [done|].
  rewrite category_data_snoc. unfold amounts_of in *.
  rewrite filter_app, map_app.
  destruct (decide (category (h l) = c)) as [<-|Hne].
  - rewrite lookup_insert_eq, IH, filter_cons_True, filter_nil by done.
    cbn [map]. by destruct (map _ (filter _ ts)).
  - rewrite lookup_insert_ne, IH, filter_cons_False, filter_nil by done.
    cbn [map]. by rewrite app_nil_r.
Qed.

Lemma calculate_baseline_lookup bs h ts c :
  calculate_baseline_stats ext bs h ts !! c =
  match amounts_of h ts c with
  | [] => bs !! c
  | amounts => Some (stats_of ext amounts)
  end.
Proof.
  unfold calculate_baseline_stats.
  rewrite lookup_union, lookup_fmap, category_data_lookup.
  by destruct (amounts_of h ts c), (bs !! c).
Qed.

(** X1. [calculate_baseline_stats] writes, for each category that occurs
    in the list, the statistics of the absolute amounts of exactly the
    transactions of that category, taken in list order; the entry of a
    category that does not occur stays what it was. *)
Theorem baseline_is_per_category
    (bs : gmap string Stats) (h : heap) (ts : list loc) (c : string) :
  calculate_baseline_stats ext bs h ts !! c =
  match amounts_of h ts c with
  | [] => bs !! c
  | amounts => Some (stats_of ext amounts)
  end.
Proof.
  unfold calculate_baseline_stats.
  rewrite lookup_union, lookup_fmap, category_data_lookup.
  by destruct (amounts_of h ts c), (bs !! c).
Qed.

Lemma calculate_baseline_nonempty bs h l ts :
  calculate_baseline_stats ext bs h (l :: ts) <> ∅.
Proof.
  intros He. pose proof (calculate_baseline_lookup bs h (l :: ts) (category (h l))) as Hl.
  rewrite He, lookup_empty in Hl. unfold amounts_of in Hl.
  rewrite filter_cons_True in Hl by done. done.
Qed.

(** X2. The baseline is computed once: a statistical detection started
    without a baseline on a list that is not empty leaves a baseline with
    an entry for the category of every transaction of the list, and any
    later detection, on whatever store and list, works from that baseline
    and returns it unchanged. *)
Theorem baseline_is_memoized
    (h : heap) (ts : list loc) (h2 : heap) (ts2 : list loc) :
  ts <> [] ->
  let bs1 := fst (fst (detect_statistical_anomalies ext ∅ h ts)) in
  (forall l, l ∈ ts -> is_Some (bs1 !! category (h l)))
  /\ fst (fst (detect_statistical_anomalies ext bs1 h2 ts2)) = bs1
  /\ snd (detect_statistical_anomalies ext bs1 h2 ts2)
     = filter (fun l => statistical_flag bs1 h2 l = true) ts2.
Proof.
  intros Hne. cbv zeta. rewrite !detect_statistical_unfold. cbv zeta. cbn [fst snd].
  rewrite (decide_True (P := ∅ = ∅)) by done.
  destruct ts as [|l0 ts]; [done|].
  rewrite decide_False by apply calculate_baseline_nonempty.
  split; [|done].
  intros l Hl. rewrite calculate_baseline_lookup.
  assert (Hin : Qabs (amount (h l)) ∈ amounts_of h (l0 :: ts) (category (h l))).
  { unfold amounts_of. apply list_elem_of_fmap. exists l. split; [done|].
    by apply list_elem_of_filter. }
  destruct (amounts_of h (l0 :: ts) (category (h l))); [by apply elem_of_nil in Hin|].
  by eexists.
Qed.
End BaselineFacts.

Section FlagEffects.
Import Datetime Models AnomalyDetector Spec.
Variable ext : Externals.
Variable contamination : Q.

Lemma outliers_subset ts : forall predictions l, l ∈ outliers ts predictions -> l ∈ ts.
Proof.
  induction ts as [|a ts IH]; intros [|p ps] l; cbn [outliers];
    try (by intros H; apply elem_of_nil in H).
  destruct (p =? -1); rewrite ?elem_of_cons; [intros [->|H]|intros H]; eauto.
Qed.

Lemma ml_loop_result ts predictions : forall i h0 acc h' res,
  ml_loop ts i predictions (mark_all h0 acc, acc) = Some (h', res) ->
  h' = mark_all h0 res /\ forall l, l ∈ res -> l ∈ acc \/ l ∈ ts.
Proof.
  induction predictions as [|p ps IH]; intros i h0 acc h' res.
  - cbn [ml_loop]. intros [= <- <-]. split; [done | by left].
  - cbn [ml_loop fst snd]. destruct (p =? -1).
    + destruct (ts !! i) as [l|] eqn:Hi; [|done].
      replace (assign_is_anomaly (mark_all h0 acc) l true) with (mark_all h0 (acc ++ [l]))
        by (by rewrite mark_all_app).
      intros H. apply IH in H as [-> Hsub]. split; [done|].
      intros x Hx. apply Hsub in Hx. rewrite elem_of_app, list_elem_of_singleton in Hx.
      destruct Hx as [[Hx| ->]|Hx]; auto. right. by eapply list_elem_of_lookup_2.
    + apply IH.
Qed.

Lemma add_to_group_sublist h ts l groups :
  Forall (fun g => snd g `sublist_of` filter (fun x => description (h x) = fst g) ts) groups ->
  Forall (fun g => snd g `sublist_of` filter (fun x => description (h x) = fst g) (ts ++ [l]))
         (add_to_group (description (h l)) l groups).
Proof.
  induction 1 as [|[d ls] groups Hg Hgs IH]; cbn [add_to_group].
  - constructor; [|constructor]. cbn [fst snd].
    rewrite filter_app, filter_cons_True, filter_nil by done.
    apply sublist_inserts_l. done.
  - assert (Hrest : Forall (fun g => snd g `sublist_of`
                      filter (fun x => description (h x) = fst g) (ts ++ [l])) groups).
    { eapply Forall_impl; [exact Hgs|]. intros g Hsub.
      rewrite filter_app. by apply sublist_inserts_r. }
    cbn [fst snd] in Hg. destruct (String.eqb_spec d (description (h l))) as [->|Hne].
    + constructor; [|done]. cbn [fst snd].
      rewrite filter_app, filter_cons_True, filter_nil by done.
      by apply sublist_app.
    + constructor; [|done]. cbn [fst snd]. rewrite filter_app. by apply sublist_inserts_r.
Qed.

Lemma merchant_transactions_sublist h ts :
  Forall (fun g => snd g `sublist_of` filter (fun x => description (h x) = fst g) ts)
         (merchant_transactions h ts).
Proof.
  induction ts as [|l ts IH] using rev_ind; [constructor|].
  unfold merchant_transactions in *. rewrite fold_left_app. cbn [fold_left].
  by apply add_to_group_sublist.
Qed.

Lemma flag_once_subset (P : loc -> Prop) st l :
  P l -> (forall x, x ∈ snd st -> P x) -> forall x, x ∈ snd (flag_once st l) -> P x.
Proof.
  destruct st as [h acc]. unfold flag_once. intros Hl Hacc x.
  destruct (is_anomaly (h l)); cbn [snd]; [apply Hacc|].
  rewrite elem_of_app, list_elem_of_singleton. intros [Hx| ->]; auto.
Qed.

Lemma frequency_pairs_subset (P : loc -> Prop) avg diffs : forall trans_list st,
  (forall x, x ∈ trans_list -> P x) -> (forall x, x ∈ snd st -> P x) ->
  forall x, x ∈ snd (frequency_pairs avg diffs trans_list st) -> P x.
Proof.
  induction diffs as [|diff diffs IH]; intros trans_list st Hl Hst; [done|].
  destruct trans_list as [|a [|b rest]]; [done..|].
  cbn [frequency_pairs]. apply IH.
  - intros x Hx. apply Hl. by apply elem_of_cons; right.
  - destruct (_ && _); [|done].
    apply flag_once_subset; [apply Hl; set_solver|].
    apply flag_once_subset; [apply Hl; set_solver | done].
Qed.

Lemma detect_frequency_subset h ts l :
  l ∈ snd (detect_frequency_anomalies ext h ts) -> l ∈ ts.
Proof.
  unfold detect_frequency_anomalies.
  pose proof (merchant_transactions_sublist h ts) as Hg.
  revert Hg. generalize (merchant_transactions h ts). intros groups Hg.
  assert (Hst : forall x, x ∈ snd (h, @nil loc) -> x ∈ ts)
    by (intros x Hx; by apply elem_of_nil in Hx).
  revert Hst. generalize (h, @nil loc). revert l.
  induction Hg as [|g groups Hsub Hg IH]; intros l st Hst; [apply Hst|].
  cbn [fold_left]. apply IH. unfold frequency_group.
  destruct (_ <? 2)%nat; [done|]. cbv zeta.
  destruct (time_diffs _ _); [done|].
  apply frequency_pairs_subset; [|done].
  intros x Hx. apply sort_asc_elem in Hx.
  eapply elem_of_sublist in Hx; [|exact Hsub].
  by apply list_elem_of_filter in Hx as [_ Hx].
Qed.

Lemma detect_ml_effect h ts h' res :
  detect_ml_anomalies ext contamination h ts = Some (h', res) -> flags_only h ts h' res.
Proof.
  unfold detect_ml_anomalies. destruct (length ts <? 10)%nat.
  - intros [= <- <-]. split; [by intros l Hl; apply elem_of_nil in Hl|].
    intros l. cbn. by rewrite orb_false_r, set_is_anomaly_same.
  - cbv zeta. intros E. apply (ml_loop_result ts _ 0%nat h [] h' res) in E as [-> Hsub].
    split; [|intros l; apply mark_all_lookup].
    intros l Hl. destruct (Hsub l Hl) as [Hn|]; [by apply elem_of_nil in Hn | done].
Qed.

Lemma detect_frequency_effect h ts :
  flags_only h ts (fst (detect_frequency_anomalies ext h ts))
                  (snd (detect_frequency_anomalies ext h ts)).
Proof.
  split; [apply detect_frequency_subset|].
  by destruct (detect_frequency_inv ext h ts) as (Hh & _ & _).
Qed.

(** X3. The model-based and the frequency detector return transactions of
    the list they were given only, and leave every record of the store as
    it was but for the flag, which they set for the transactions they
    return and never clear. *)
Theorem detectors_change_flags_only (h : heap) (ts : list loc) :
  match detect_ml_anomalies ext contamination h ts with
  | Some (h', res) => flags_only h ts h' res
  | None => True
  end
  /\ flags_only h ts (fst (detect_frequency_anomalies ext h ts))
                     (snd (detect_frequency_anomalies ext h ts)).
Proof.
  split; [|apply detect_frequency_effect].
  destruct (detect_ml_anomalies ext contamination h ts) as [[h' res]|] eqn:E; [|done].
  by apply detect_ml_effect.
Qed.
End FlagEffects.

Section FrequencyPairs.
Import Datetime Models AnomalyDetector Spec.
Variable ext : Externals.



End FrequencyPairs.

Section DetectAll.
Import Datetime Models AnomalyDetector Spec.
Variable ext : Externals.
Variable contamination : Q.

Lemma reset_flags_agree h h' ts :
  (forall l, l ∈ ts -> set_is_anomaly false (h l) = set_is_anomaly false (h' l)) ->
  (forall l, ~ l ∈ ts -> h l = h' l) ->
  reset_flags h ts = reset_flags h' ts.
Proof.
  intros Hin Hout. apply functional_extensionality. intros l.
  rewrite !reset_flags_lookup. case_bool_decide; auto.
Qed.

Lemma flags_only_reset h ts h' res :
  flags_only h ts h' res -> reset_flags h' ts = reset_flags h ts.
Proof.
  intros [Hsub Hh]. apply reset_flags_agree.
  - intros l _. by rewrite Hh.
  - intros l Hl. rewrite Hh, bool_decide_eq_false_2 by (intros Hr; by apply Hl, Hsub).
    by rewrite orb_false_r, set_is_anomaly_same.
Qed.

Lemma flags_only_trans h ts h1 r1 h2 r2 :
  flags_only h ts h1 r1 -> flags_only h1 ts h2 r2 -> flags_only h ts h2 (r1 ++ r2).
Proof.
  intros [Hs1 Hh1] [Hs2 Hh2]. split.
  - intros l. rewrite elem_of_app. intros [?|?]; auto.
  - intros l. rewrite Hh2, Hh1.
    rewrite (bool_decide_ext _ _ (elem_of_app r1 r2 l)), bool_decide_or, orb_assoc.
    done.
Qed.

(** What [detect_all_anomalies] does after it has reset the flags. *)
Lemma detect_all_unfold bs h ts :
  detect_all_anomalies ext contamination bs h ts =
  let h0 := reset_flags h ts in
  let bs' := if decide (bs = ∅) then calculate_baseline_stats ext bs h0 ts else bs in
  let st := filter (fun l => statistical_flag bs' h0 l = true) ts in
  match detect_ml_anomalies ext contamination (mark_all h0 st) ts with
  | Some (h2, ml) =>
      Some (bs', fst (detect_frequency_anomalies ext h2 ts),
            mk_Results st ml (snd (detect_frequency_anomalies ext h2 ts)))
  | None => None
  end.
Proof.
  unfold detect_all_anomalies. cbv zeta.
  rewrite detect_statistical_unfold. cbv beta iota zeta.
  destruct (detect_ml_anomalies _ _ _ _) as [[h2 ml]|]; [|done].
  cbn [mbind option_bind]. by destruct (detect_frequency_anomalies ext h2 ts).
Qed.

(** X5. The flags that the transactions of the list carry before
    [detect_all_anomalies] have no influence on what it returns: two
    stores that differ in those flags only give the same baseline, the
    same three lists and the same final store. *)
Theorem detect_all_ignores_prior_flags
    (bs : gmap string Stats) (h h' : heap) (ts : list loc) :
  (forall l, l ∈ ts -> set_is_anomaly false (h l) = set_is_anomaly false (h' l)) ->
  (forall l, ~ l ∈ ts -> h l = h' l) ->
  detect_all_anomalies ext contamination bs h ts
  = detect_all_anomalies ext contamination bs h' ts.
Proof.
  intros Hin Hout. rewrite !detect_all_unfold.
  by rewrite (reset_flags_agree h h' ts Hin Hout).
Qed.

(** X6. Running [detect_all_anomalies] again, on the store and with the
    baseline the first run left, gives the same baseline, the same three
    lists and the same store once more. *)
Theorem detect_all_idempotent
    (bs bs' : gmap string Stats) (h h' : heap) (ts : list loc) (results : Results) :
  detect_all_anomalies ext contamination bs h ts = Some (bs', h', results) ->
  detect_all_anomalies ext contamination bs' h' ts = Some (bs', h', results).
Proof.
  rewrite !detect_all_unfold. cbv zeta.
  set (h0 := reset_flags h ts).
  set (eff := if decide (bs = ∅) then calculate_baseline_stats ext bs h0 ts else bs).
  set (st := filter _ ts).
  destruct (detect_ml_anomalies ext contamination (mark_all h0 st) ts)
    as [[h2 ml]|] eqn:Eml; [|done].
  intros [= <- <- <-].
  assert (Hst : flags_only h0 ts (mark_all h0 st) st).
  { split; [|apply mark_all_lookup]. intros l Hl.
    by apply list_elem_of_filter in Hl as [_ Hl]. }
  pose proof (detect_ml_effect ext contamination _ _ _ _ Eml) as Hml.
  pose proof (detect_frequency_effect ext h2 ts) as Hfr.
  pose proof (flags_only_trans _ _ _ _ _ _ (flags_only_trans _ _ _ _ _ _ Hst Hml) Hfr) as Hall.
  assert (Hreset : reset_flags (fst (detect_frequency_anomalies ext h2 ts)) ts = h0).
  { rewrite (flags_only_reset _ _ _ _ Hall). unfold h0. apply reset_flags_agree.
    - intros l _. rewrite reset_flags_lookup. by case_bool_decide.
    - intros l Hl. rewrite reset_flags_lookup. by rewrite bool_decide_eq_false_2. }
  rewrite Hreset.
  assert (Heff : (if decide (eff = ∅) then calculate_baseline_stats ext eff h0 ts else eff)
                 = eff).
  { case_decide as E; [|done]. rewrite E. unfold eff in E.
    destruct (decide (bs = ∅)) as [->|Hb]; [exact E | contradiction]. }
  rewrite Heff. fold st. by rewrite Eml.
Qed.
End DetectAll.

(** * More of [expense_tracker/models.py] and [expense_tracker/categorizer.py] *)

Section ExpenseFacts.
Import Models Expense.

Lemma sum_from (xs : list Q) (a : Q) : (fold_left Qplus xs a == a + Py.sum xs)%Q.
Proof.
  unfold Py.sum. revert a.
  induction xs as [|x xs IH]; intros a; cbn [fold_left].
  - by rewrite Qplus_0_r.
  - rewrite (IH (a + x)%Q), (IH (0 + x)%Q). ring.
Qed.

Lemma sum_nonneg (xs : list Q) : Forall (fun x => 0 <= x)%Q xs -> (0 <= Py.sum xs)%Q.
Proof.
  induction 1 as [|x xs Hx Hxs IH]; [by cbn|].
  unfold Py.sum. cbn [fold_left]. rewrite sum_from.
  rewrite Qplus_0_l. change 0%Q with (0 + 0)%Q at 1. by apply Qplus_le_compat.
Qed.

Lemma add_transactions_fields (amounts : list Q) : forall c,
  name (fold_left add_transaction amounts c) = name c
  /\ keywords (fold_left add_transaction amounts c) = keywords c
  /\ transaction_count (fold_left add_transaction amounts c)
     = (transaction_count c + length amounts)%nat
  /\ total_amount (fold_left add_transaction amounts c)
     = fold_left Qplus (map Qabs amounts) (total_amount c).
Proof.
  induction amounts as [|a amounts IH]; intros c; cbn [fold_left map length].
  - by rewrite Nat.add_0_r.
  - destruct (IH (add_transaction c a)) as (-> & -> & -> & ->).
    cbn. repeat split; lia.
Qed.

(** X7. Adding transactions to a category counts each of them once and
    adds up their absolute amounts, so that the total is never negative
    when it was not; for a new category the average is the mean of the
    absolute amounts, and 0, not a division by zero, when there are
    none. *)
Theorem add_transaction_accumulates (c : ExpenseCategory) (amounts : list Q) :
  let c' := fold_left add_transaction amounts c in
  transaction_count c' = (transaction_count c + length amounts)%nat
  /\ (total_amount c' == total_amount c + Py.sum (map Qabs amounts))%Q
  /\ (total_amount c <= total_amount c')%Q
  /\ (average_amount (fold_left add_transaction amounts (new_category (name c) (keywords c)))
      == match amounts with
         | [] => 0
         | _ => Py.sum (map Qabs amounts) / inject_Z (Z.of_nat (length amounts))
         end)%Q.
Proof.
  cbv zeta.
  destruct (add_transactions_fields amounts c) as (_ & _ & Hn & Ht).
  assert (Hnn : (0 <= Py.sum (map Qabs amounts))%Q).
  { apply sum_nonneg, Forall_forall. intros x Hx.
    apply list_elem_of_fmap in Hx as (a & -> & _). apply Qabs_nonneg. }
  split; [done|]. split; [rewrite Ht; apply sum_from|]. split.
  - rewrite Ht, sum_from. rewrite <- (Qplus_0_r (total_amount c)) at 1.
    by apply Qplus_le_r.
  - destruct (add_transactions_fields amounts (new_category (name c) (keywords c)))
      as (_ & _ & Hn' & Ht').
    unfold average_amount. rewrite Hn', Ht'. cbn [new_category transaction_count total_amount].
    destruct amounts as [|a amounts]; [done|].
    cbn [length Nat.add Nat.eqb]. rewrite sum_from, Qplus_0_l. reflexivity.
Qed.
End ExpenseFacts.

Section ExpenseCategorizerFacts.
Import Models Expense.

Lemma dict_get_adjust {V} (f : V -> V) k n (d : list (string * V)) :
  dict_get n (dict_adjust f k d) =
  if decide (n = k) then f <$> dict_get n d else dict_get n d.
Proof.
  induction d as [|[k' v] d IH]; cbn [dict_adjust dict_get]; [by case_decide|].
  destruct (String.eqb_spec k' k) as [->|Hk]; cbn [dict_get].
  - destruct (String.eqb_spec k n) as [->|Hn]; case_decide; try done; congruence.
  - rewrite IH. destruct (String.eqb_spec k' n) as [->|Hn]; [|done].
    by rewrite decide_False.
Qed.

Lemma has_key_false_get {V} k (d : list (string * V)) :
  has_key k d = false -> dict_get k d = None.
Proof.
  induction d as [|[k' v] d IH]; [done|]. cbn. destruct (String.eqb k' k); [done | exact IH].
Qed.

Lemma keyword_view_adjust amount k categories :
  keyword_view (dict_adjust (fun c => add_transaction c amount) k categories)
  = keyword_view categories.
Proof.
  induction categories as [|[k' c] categories IH]; [done|].
  cbn [dict_adjust]. unfold keyword_view in *.
  destruct (String.eqb k' k); cbn [map fst snd]; [done | by rewrite IH].
Qed.

Lemma assign_category_lookup h l c l' :
  assign_category h l c l' = if decide (l' = l) then set_category c (h l) else h l'.
Proof.
  unfold assign_category, update.
  destruct (Nat.eqb_spec l' l); case_decide; congruence.
Qed.

Lemma categorize_loop categories h ts :
  let '(h', categories') := categorize_transactions categories h ts in
  keyword_view categories' = keyword_view categories
  /\ (forall l, h' l = if bool_decide (l ∈ ts)
                       then set_category (category_for categories (h l)) (h l)
                       else h l)
  /\ (forall n, dict_get n categories' =
                (fun c => fold_left add_transaction (amounts_in categories h ts n) c)
                  <$> dict_get n categories).
Proof.
  unfold categorize_transactions.
  induction ts as [|x ts IH] using rev_ind.
  - cbn. split; [done|]. split; [done|]. intros n. by destruct (dict_get n categories).
  - rewrite fold_left_app. cbn [fold_left].
    destruct (fold_left categorize_step ts (h, categories)) as [h' categories'].
    destruct IH as (Hview & Hh & Hget).
    assert (Hcat : Categorizer.expense_categorize_transaction (keyword_view categories') (h' x)
                   = category_for categories (h x)).
    { unfold category_for, Categorizer.expense_categorize_transaction.
      rewrite Hview, Hh. by case_bool_decide. }
    assert (Hamt : amount (assign_category h' x (category_for categories (h x)) x)
                   = amount (h x)).
    { rewrite assign_category_lookup, decide_True, Hh by done. by case_bool_decide. }
    assert (Hh' : forall l, assign_category h' x (category_for categories (h x)) l =
                  if bool_decide (l ∈ ts ++ [x])
                  then set_category (category_for categories (h l)) (h l) else h l).
    { intros l. rewrite assign_category_lookup. case_decide as E.
      - subst l. rewrite bool_decide_eq_true_2
          by (apply elem_of_app; right; by apply list_elem_of_singleton).
        rewrite Hh. by case_bool_decide.
      - rewrite Hh. apply (f_equal (fun b : bool => if b then _ else _)).
        apply bool_decide_ext. rewrite elem_of_app, list_elem_of_singleton. intuition. }
    assert (Hget' : forall n,
      (if decide (n = category_for categories (h x))
       then (fun c => add_transaction c (amount (h x))) <$> dict_get n categories'
       else dict_get n categories') =
      (fun c => fold_left add_transaction (amounts_in categories h (ts ++ [x]) n) c)
        <$> dict_get n categories).
    { intros n. rewrite Hget. unfold amounts_in. rewrite filter_app, map_app.
      case_decide as E.
      - subst n. rewrite filter_cons_True, filter_nil by done. cbn [map].
        destruct (dict_get _ categories); [|done]. cbn. by rewrite fold_left_app.
      - rewrite filter_cons_False, filter_nil by done. cbn [map]. by rewrite app_nil_r. }
    unfold categorize_step. cbv zeta. rewrite Hcat, Hamt.
    destruct (has_key _ categories') eqn:Hk.
    + split; [by rewrite keyword_view_adjust|]. split; [done|].
      intros n. rewrite dict_get_adjust. apply Hget'.
    + split; [done|]. split; [done|].
      intros n. rewrite <- Hget'. case_decide as E; [|done].
      subst n. by rewrite (has_key_false_get _ _ Hk).
Qed.

Lemma expense_first_match_named config text :
  Categorizer.expense_first_match config text = "Other"%string
  \/ Categorizer.expense_first_match config text ∈ map fst config.
Proof.
  induction config as [|[c kws] config IH]; [by left|].
  cbn [Categorizer.expense_first_match map fst].
  destruct (existsb _ kws); [right; by apply elem_of_cons; left|].
  destruct IH as [IH|IH]; [by left | right; by apply elem_of_cons; right].
Qed.

(** X8. The batch categorization changes nothing in a record but its
    category, which becomes, for every transaction of the list, the
    category found from its description: a configured name or "Other".
    The keywords stay as they were, and each configured category gains
    exactly the transactions of the list that fell into it: one count and
    one absolute amount per list entry. *)
Theorem categorize_transactions_effect
    (categories : list (string * ExpenseCategory)) (h : heap) (ts : list loc) :
  let '(h', categories') := categorize_transactions categories h ts in
  keyword_view categories' = keyword_view categories
  /\ (forall l, h' l = if bool_decide (l ∈ ts)
                       then set_category (category_for categories (h l)) (h l)
                       else h l)
  /\ (forall l, l ∈ ts ->
        category (h' l) = "Other"%string \/ category (h' l) ∈ map fst categories)
  /\ (forall n c, dict_get n categories = Some c ->
        exists c', dict_get n categories' = Some c'
          /\ transaction_count c'
             = (transaction_count c + length (amounts_in categories h ts n))%nat
          /\ (total_amount c'
              == total_amount c + Py.sum (map Qabs (amounts_in categories h ts n)))%Q).
Proof.
  pose proof (categorize_loop categories h ts) as Hloop.
  destruct (categorize_transactions categories h ts) as [h' categories'].
  destruct Hloop as (Hview & Hh & Hget).
  split; [done|]. split; [done|]. split.
  - intros l Hl. rewrite Hh, bool_decide_eq_true_2 by done. cbn [set_category category].
    unfold category_for, Categorizer.expense_categorize_transaction.
    destruct (expense_first_match_named (keyword_view categories)
                (Py.lower (description (h l)))) as [Ho|Hn]; [by left|].
    right. unfold keyword_view in Hn. by rewrite map_map in Hn.
  - intros n c Hc. rewrite Hget, Hc. eexists. split; [done|].
    destruct (add_transactions_fields (amounts_in categories h ts n) c)
      as (_ & _ & -> & ->).
    split; [done | apply sum_from].
Qed.
End ExpenseCategorizerFacts.

(** * More of [categorizer.py]: construction and extension *)

Section DictFacts.
Import Expense Categorizer.
Context {V : Type}.

Lemma dict_set_keys k (v : V) d :
  map fst (dict_set k v d) = if has_key k d then map fst d else map fst d ++ [k].
Proof.
  induction d as [|[k' v'] d IH]; [done|].
  cbn [dict_set has_key existsb fst map]. fold (has_key k d).
  destruct (String.eqb k' k); cbn [orb map fst]; [done|].
  rewrite IH. by destruct (has_key k d).
Qed.

Lemma dict_get_set k (v : V) n d :
  dict_get n (dict_set k v d) = if decide (n = k) then Some v else dict_get n d.
Proof.
  induction d as [|[k' v'] d IH]; cbn [dict_set dict_get].
  - destruct (String.eqb_spec k n); case_decide; congruence.
  - destruct (String.eqb_spec k' k) as [->|Hk]; cbn [dict_get].
    + destruct (String.eqb_spec k n); case_decide; congruence.
    + rewrite IH. destruct (String.eqb_spec k' n) as [->|]; [|done].
      by rewrite decide_False.
Qed.

Lemma dict_set_new k (v : V) d : has_key k d = false -> dict_set k v d = d ++ [(k, v)].
Proof.
  induction d as [|[k' v'] d IH]; [done|].
  cbn [has_key existsb fst dict_set]. fold (has_key k d).
  destruct (String.eqb k' k); [done|]. cbn [orb]. intros H. by rewrite IH.
Qed.

Lemma dict_update_keys (other d : list (string * V)) :
  map fst d `prefix_of` map fst (dict_update d other).
Proof.
  unfold dict_update. revert d.
  induction other as [|[k v] other IH]; intros d; [done|].
  cbn [fold_left fst snd]. etrans; [|apply IH].
  rewrite dict_set_keys. destruct (has_key k d); [done | by apply prefix_app_r].
Qed.

Lemma dict_update_get n (other d : list (string * V)) :
  dict_get n (dict_update d other) =
  match dict_get n (reverse other) with
  | Some v => Some v
  | None => dict_get n d
  end.
Proof.
  unfold dict_update. revert d.
  induction other as [|[k v] other IH] using rev_ind; intros d; [done|].
  rewrite fold_left_app, reverse_app. cbn [fold_left fst snd reverse rev_append app dict_get].
  rewrite dict_get_set. destruct (String.eqb_spec k n); case_decide; try congruence.
  apply IH.
Qed.
End DictFacts.

Section ConstructorFacts.
Import Expense Categorizer.

(** X9. A categorizer built with custom categories keeps the default
    categories first, in their order, so that overriding the keywords of
    a default category does not change its rank; the keywords of a
    category are the custom ones when it was given (the last ones given
    for that name), the default ones otherwise. *)
Theorem custom_categories_keep_default_order
    (custom_categories : list (string * list string)) (n : string) :
  map fst CATEGORY_KEYWORDS `prefix_of` map fst (categories custom_categories)
  /\ dict_get n (categories custom_categories) =
     match dict_get n (reverse custom_categories) with
     | Some keywords => Some keywords
     | None => dict_get n CATEGORY_KEYWORDS
     end.
Proof.
  unfold categories. split; [apply dict_update_keys | apply dict_update_get].
Qed.
End ConstructorFacts.

(** * More of [expense_tracker/categorizer.py]: the summary *)

Section ExpenseSummaryFacts.
Import Models Expense.

Lemma dict_ext {V} (d1 d2 : list (string * V)) :
  map fst d1 = map fst d2 -> NoDup (map fst d1) ->
  (forall n, n ∈ map fst d1 -> dict_get n d1 = dict_get n d2) -> d1 = d2.
Proof.
  revert d2. induction d1 as [|[k v] d1 IH]; intros [|[k2 v2] d2] Hk Hnd Hget; try done.
  cbn [map fst] in *. injection Hk as -> Hk. apply NoDup_cons in Hnd as [Hnotin Hnd].
  pose proof (Hget k2 ltac:(by apply elem_of_cons; left)) as Hhead.
  cbn [dict_get] in Hhead. rewrite String.eqb_refl in Hhead. injection Hhead as ->.
  f_equal. apply IH; [done..|].
  intros n Hn. specialize (Hget n ltac:(by apply elem_of_cons; right)).
  cbn [dict_get] in Hget. destruct (String.eqb_spec k2 n) as [->|]; [contradiction | done].
Qed.

Lemma dict_get_map_values {V W} (f : string -> V -> W) n (d : list (string * V)) :
  dict_get n (map (fun kv => (fst kv, f (fst kv) (snd kv))) d) = f n <$> dict_get n d.
Proof.
  induction d as [|[k v] d IH]; [done|]. cbn [map dict_get fst snd].
  by destruct (String.eqb_spec k n) as [->|].
Qed.

(** With the keys of a dictionary all different, the loop of
    [categorize_transactions] leaves each category in its place, grown by
    the amounts that fell into it. *)
Lemma categorize_positions categories h ts :
  NoDup (map fst categories) ->
  snd (categorize_transactions categories h ts) =
  map (fun nc => (fst nc, fold_left add_transaction (amounts_in categories h ts (fst nc)) (snd nc)))
      categories.
Proof.
  intros Hnd. pose proof (categorize_loop categories h ts) as Hloop.
  destruct (categorize_transactions categories h ts) as [h' categories'].
  destruct Hloop as (Hview & _ & Hget). cbn [snd].
  assert (Hkeys : map fst categories' = map fst categories).
  { apply (f_equal (map fst)) in Hview. unfold keyword_view in Hview.
    by rewrite !map_map in Hview. }
  apply dict_ext.
  - by rewrite Hkeys, map_map.
  - by rewrite Hkeys.
  - intros n _. rewrite Hget.
    by rewrite (dict_get_map_values (fun n c => fold_left add_transaction (amounts_in categories h ts n) c)).
Qed.

Lemma omap_step {A B} (f : A -> option B) x l :
  omap f (x :: l) = match f x with Some y => y :: omap f l | None => omap f l end.
Proof. done. Qed.

Lemma summary_keys_of_counts (categories : list (string * ExpenseCategory)) :
  map fst (get_category_summary categories)
  = map fst (filter (fun nc => 0 < transaction_count (snd nc))%nat categories).
Proof.
  unfold get_category_summary.
  induction categories as [|[n c] categories IH]; [done|]. rewrite omap_step. cbn [snd fst].
  destruct (Nat.ltb_spec 0 (transaction_count c)).
  - rewrite filter_cons_True by done. cbn [map fst]. f_equal. exact IH.
  - rewrite filter_cons_False by (cbn; lia). exact IH.
Qed.

Lemma summary_counts (amounts : string -> list Q) (categories : list (string * ExpenseCategory)) :
  Forall (fun nc => transaction_count (snd nc) = 0%nat) categories ->
  map (fun nr => (fst nr, s_transaction_count (snd nr)))
      (get_category_summary
         (map (fun nc => (fst nc, fold_left add_transaction (amounts (fst nc)) (snd nc)))
              categories))
  = map (fun n => (n, length (amounts n)))
        (filter (fun n => amounts n <> []) (map fst categories)).
Proof.
  unfold get_category_summary.
  induction 1 as [|[n c] categories Hc _ IH]; [done|].
  cbn [map fst snd] in *. rewrite omap_step. cbn [fst snd].
  destruct (add_transactions_fields (amounts n) c) as (_ & _ & -> & _). rewrite Hc.
  destruct (amounts n) as [|a amounts'] eqn:Ha.
  - rewrite filter_cons_False by (rewrite Ha; tauto). exact IH.
  - rewrite filter_cons_True by (by rewrite Ha). cbn [length Nat.add Nat.ltb Nat.leb map fst snd s_transaction_count].
    rewrite Ha. cbn [length]. f_equal. exact IH.
Qed.

Lemma count_by_key {A} (g : A -> string) (ts : list A) (ns : list string) :
  NoDup ns ->
  sum_list (map (fun n => length (filter (fun l => g l = n) ts)) ns)
  = length (filter (fun l => g l ∈ ns) ts).
Proof.
  induction 1 as [|n ns Hn Hnd IH]; cbn [map sum_list].
  - induction ts as [|x ts IHts]; [done|].
    rewrite filter_cons_False by apply not_elem_of_nil. exact IHts.
  - rewrite IH. clear IH. unfold id. induction ts as [|x ts IHts]; [done|].
    destruct (decide (g x = n)) as [E|E].
    + rewrite (filter_cons_True (fun l => g l = n)) by done.
      rewrite (filter_cons_False (fun l => g l ∈ ns)) by (by rewrite E).
      rewrite (filter_cons_True (fun l => g l ∈ n :: ns)) by (apply elem_of_cons; by left).
      cbn [length]. lia.
    + rewrite (filter_cons_False (fun l => g l = n)) by done.
      destruct (decide (g x ∈ ns)) as [I|I].
      * rewrite (filter_cons_True (fun l => g l ∈ ns)) by done.
        rewrite (filter_cons_True (fun l => g l ∈ n :: ns)) by (apply elem_of_cons; by right).
        cbn [length]. lia.
      * rewrite (filter_cons_False (fun l => g l ∈ ns)) by done.
        rewrite (filter_cons_False (fun l => g l ∈ n :: ns))
          by (rewrite elem_of_cons; tauto).
        exact IHts.
Qed.

Lemma sum_list_filter_nonempty {A} (f : string -> list A) (ns : list string) :
  sum_list (map (fun n => length (f n)) (filter (fun n => f n <> []) ns))
  = sum_list (map (fun n => length (f n)) ns).
Proof.
  induction ns as [|n ns IH]; [done|].
  destruct (f n) as [|a l] eqn:E.
  - rewrite filter_cons_False by tauto. cbn [map sum_list]. by rewrite E, IH.
  - rewrite filter_cons_True by congruence. cbn [map sum_list]. by rewrite IH.
Qed.

(** X19. From categories that have seen no transaction yet, as the
    constructor leaves them, the summary after a batch lists exactly the
    categories some transaction of the batch fell into, in configuration
    order, each with the number of those transactions.  The counts add up
    to the number of transactions filed under a configured name: those
    filed under a name that is no key of the configuration ("Other",
    usually) appear nowhere in the summary. *)
Theorem summary_lists_used_categories
    (categories : list (string * ExpenseCategory)) (h : heap) (ts : list loc) :
  NoDup (map fst categories) ->
  Forall (fun nc => transaction_count (snd nc) = 0%nat) categories ->
  let summary := get_category_summary (snd (categorize_transactions categories h ts)) in
  map fst summary
  = filter (fun n => amounts_in categories h ts n <> []) (map fst categories)
  /\ (forall n row, (n, row) ∈ summary ->
        s_transaction_count row = length (amounts_in categories h ts n))
  /\ sum_list (map (fun nr => s_transaction_count (snd nr)) summary)
     = length (filter (fun l => category_for categories (h l) ∈ map fst categories) ts).
Proof.
  intros Hnd Hzero. cbv zeta. rewrite categorize_positions by done.
  pose proof (summary_counts (amounts_in categories h ts) categories Hzero) as Hrows.
  set (summary := get_category_summary _) in *.
  split; [|split].
  - apply (f_equal (map fst)) in Hrows. rewrite !map_map in Hrows. cbn [fst] in Hrows.
    by rewrite map_id in Hrows.
  - intros n row Hin.
    assert (Hin' : (n, s_transaction_count row)
                   ∈ map (fun nr => (fst nr, s_transaction_count (snd nr))) summary).
    { apply list_elem_of_fmap. by exists (n, row). }
    rewrite Hrows in Hin'. apply list_elem_of_fmap in Hin' as (n' & E & _).
    by injection E as -> ->.
  - apply (f_equal (map snd)) in Hrows. rewrite !map_map in Hrows. cbn [snd] in Hrows.
    rewrite Hrows, sum_list_filter_nonempty.
    rewrite <- (count_by_key (fun l => category_for categories (h l)) ts _ Hnd).
    f_equal. apply map_ext. intros n. unfold amounts_in. by rewrite length_map.
Qed.

End ExpenseSummaryFacts.

Section KeywordStoreFacts.
Import Expense Categorizer KeywordStore Spec.

Lemma first_match_app ps qs text :
  first_match (ps ++ qs) text =
  if existsb (fun cp => matches (snd cp) text) ps
  then first_match ps text else first_match qs text.
Proof.
  induction ps as [|[c p] ps IH]; [done|].
  cbn [app first_match existsb snd]. by destruct (matches p text).
Qed.

Lemma first_match_none ps text :
  existsb (fun cp => matches (snd cp) text) ps = false ->
  first_match ps text = "Other"%string.
Proof.
  induction ps as [|[c p] ps IH]; [done|].
  cbn [first_match existsb snd]. by destruct (matches p text).
Qed.

(** X10. A category added under a new name comes last: a text that
    already had a category keeps it, and a text that no category matched
    gets the new one exactly when one of the new keywords occurs in
    it. *)
Theorem add_custom_category_comes_last
    (s : lists) (c : categorizer) (category_name : string) (keywords : lref)
    (merchant description : string) :
  has_key category_name (self_categories c) = false ->
  category_patterns c = _compile_patterns (contents s (self_categories c)) ->
  let c' := add_custom_category s c category_name keywords in
  let text := Py.lower (merchant +:+ " " +:+ description) in
  (categorize c merchant description <> "Other"%string ->
   categorize c' merchant description = categorize c merchant description)
  /\ (existsb (fun cp => matches (snd cp) text) (category_patterns c) = false ->
      categorize c' merchant description =
      if match s keywords with
         | [] => true
         | _ => existsb (fun kw => contains_i kw text) (s keywords)
         end
      then category_name else "Other"%string).
Proof.
  intros Hnew Hpat. cbv zeta.
  unfold categorize, categorize_transaction, add_custom_category. cbv zeta.
  cbn [category_patterns]. rewrite dict_set_new by done.
  unfold contents, _compile_patterns. rewrite !map_app. cbn [map fst snd].
  fold (contents s (self_categories c)).
  fold (_compile_patterns (contents s (self_categories c))). rewrite <- Hpat.
  rewrite first_match_app. split.
  - intros Hold. destruct (existsb _ (category_patterns c)) eqn:E; [done|].
    by rewrite first_match_none in Hold.
  - intros ->. cbn [first_match]. rewrite matches_keywords. by destruct (s keywords).
Qed.

(** X11. The keyword lists of the default categories are shared by all
    categorizers: an instance built from the defaults sees exactly
    [CATEGORY_KEYWORDS], but once some instance has extended the keywords
    of a default category, every categorizer built afterwards, also
    without custom categories, has the added keywords in that category,
    its other categories being as before. *)
Theorem update_category_keywords_changes_the_defaults
    (s : lists) (custom : list (string * lref)) (category_name : string)
    (r keywords : lref) (n : string) (r' : lref) :
  dict_get category_name (dict_update CLASS_KEYWORDS custom) = Some r ->
  dict_get n CLASS_KEYWORDS = Some r' ->
  let '(s', c') := update_category_keywords s (init s custom) category_name keywords in
  contents loaded (self_categories (init loaded [])) = CATEGORY_KEYWORDS
  /\ category_patterns c' = _compile_patterns (contents s' (self_categories c'))
  /\ dict_get n (contents s' (self_categories (init s' []))) =
     Some (if (r' =? r)%nat then s r ++ s keywords else s r').
Proof.
  intros Hr Hn. unfold update_category_keywords. cbn [init self_categories].
  unfold lref in *. rewrite Hr. cbv zeta.
  split; [by vm_compute|]. split; [done|].
  cbn [dict_update fold_left].
  revert Hn. generalize CLASS_KEYWORDS. intros d.
  induction d as [|[k x] d IH]; [done|]. cbn [dict_get contents map fst snd].
  destruct (String.eqb k n); [by intros [= ->] | exact IH].
Qed.
End KeywordStoreFacts.

(** * More of [transaction_parser.py]: what the patterns can and cannot find *)

Section ReProofs.
Import Re ReFacts.

Lemma all_ascii_complete c : c ∈ all_ascii.
Proof.
  unfold all_ascii. apply list_elem_of_fmap. exists (nat_of_ascii c).
  split; [by rewrite ascii_nat_embedding|].
  apply list_elem_of_In, in_seq. pose proof (nat_ascii_bounded c). lia.
Qed.

Lemma must_chr P p c :
  forallb (fun c => implb (p c) (P c)) all_ascii = true -> p c = true -> P c = true.
Proof.
  rewrite forallb_forall. intros H Hp.
  specialize (H c (proj1 (list_elem_of_In _ _) (all_ascii_complete c))).
  by rewrite Hp in H.
Qed.

Lemma drop_0 (s : string) : Re.drop 0 s = s.
Proof. by destruct s. Qed.

Lemma drop_drop n m (s : string) : Re.drop m (Re.drop n s) = Re.drop (n + m) s.
Proof.
  revert s. induction n as [|n IH]; intros s; [by rewrite drop_0|].
  destruct s as [|c s]; [by destruct m|]. cbn [Re.drop Nat.add]. apply IH.
Qed.

Lemma length_drop n (s : string) : String.length (Re.drop n s) = (String.length s - n)%nat.
Proof.
  revert s. induction n as [|n IH]; intros s; [rewrite drop_0; lia|].
  destruct s as [|c s]; [done|]. cbn [Re.drop String.length]. rewrite IH. lia.
Qed.

Lemma get_drop n i (s : string) : String.get i (Re.drop n s) = String.get (n + i) s.
Proof.
  revert s. induction n as [|n IH]; intros s; [by rewrite drop_0|].
  destruct s as [|c s]; [by destruct i|]. cbn [Re.drop Nat.add String.get]. apply IH.
Qed.

(** Where a successful run hands over to its continuation. *)
Lemma run_consumes P (r : regex) : forall R pos s (k : nat -> string -> option R) x,
  run r pos s k = Some x ->
  exists n, (n <= String.length s)%nat /\ k (pos + n)%nat (Re.drop n s) = Some x
            /\ (must P r = true -> has_between P s 0 n).
Proof.
  induction r as [|p|r1 IH1 r2 IH2|r1 IH1 r2 IH2|r1 IH1| |]; intros R pos s k x; cbn [run must].
  - intros H. exists 0%nat. rewrite Nat.add_0_r, drop_0. repeat split; [lia|done|done].
  - destruct s as [|c s]; [done|]. destruct (p c) eqn:Hp; [|done]. intros H.
    exists 1%nat. rewrite Nat.add_1_r. cbn [Re.drop String.length]. rewrite ?drop_0.
    repeat split; [lia|done|]. intros Hm. exists 0%nat, c.
    repeat split; [lia..|]. by eapply must_chr.
  - intros H. apply IH1 in H as (n1 & Hn1 & H & Hm1).
    apply IH2 in H as (n2 & Hn2 & H & Hm2). rewrite length_drop in Hn2.
    exists (n1 + n2)%nat. rewrite drop_drop in H. rewrite Nat.add_assoc.
    repeat split; [lia|done|]. intros Hm. apply orb_true_iff in Hm as [Hm|Hm].
    + destruct (Hm1 Hm) as (i & c & Hi & Hg & Hc). exists i, c. repeat split; [lia..|done|done].
    + destruct (Hm2 Hm) as (i & c & Hi & Hg & Hc). rewrite get_drop in Hg.
      exists (n1 + i)%nat, c. repeat split; [lia..|done|done].
  - intros H. destruct (run r1 pos s k) as [y|] eqn:E1.
    + injection H as ->. apply IH1 in E1 as (n & Hn & H & Hm).
      exists n. repeat split; [done..|]. intros Hb. apply andb_true_iff in Hb as [Hb _]. auto.
    + apply IH2 in H as (n & Hn & H & Hm).
      exists n. repeat split; [done..|]. intros Hb. apply andb_true_iff in Hb as [_ Hb]. auto.
  - generalize (String.length s) at 1. intros fuel. revert pos s.
    induction fuel as [|fuel IHf]; intros pos s H.
    + exists 0%nat. rewrite Nat.add_0_r, drop_0. repeat split; [lia|done|done].
    + destruct (run r1 pos s _) as [y|] eqn:E1.
      * injection H as ->. apply IH1 in E1 as (n1 & Hn1 & E1 & _).
        destruct (pos <? pos + n1)%nat; [|done].
        apply IHf in E1 as (n2 & Hn2 & E1 & _). rewrite length_drop in Hn2.
        exists (n1 + n2)%nat. rewrite drop_drop in E1. rewrite Nat.add_assoc.
        repeat split; [lia|done|done].
      * exists 0%nat. rewrite Nat.add_0_r, drop_0. repeat split; [lia|done|done].
  - destruct (pos =? 0)%nat; [|done]. intros H.
    exists 0%nat. rewrite Nat.add_0_r, drop_0. repeat split; [lia|done|done].
  - intros H. exists 0%nat. rewrite Nat.add_0_r, drop_0.
    repeat split; [lia| |done].
    destruct s as [|c [|? ?]]; [done| |done]. by destruct (Ascii.eqb c "010").
Qed.

(** What a successful search returns: a span inside the subject, at which
    the pattern matches. *)
Lemma search_from_span P r s : forall pos b e,
  search_from r pos s = Some (b, e) ->
  exists i n, b = (pos + i)%nat /\ e = (b + n)%nat /\ (i + n <= String.length s)%nat
              /\ (must P r = true -> has_between P s i (i + n)).
Proof.
  induction s as [|c s IH]; intros pos b e; cbn [search_from].
  - destruct (match_at r pos "") as [e'|] eqn:E; [|done]. intros [= <- <-].
    apply (run_consumes P) in E as (n & Hn & [= <-] & Hm).
    exists 0%nat, n. rewrite Nat.add_0_r. repeat split; [done|]. done.
  - destruct (match_at r pos (String c s)) as [e'|] eqn:E.
    + intros [= <- <-]. apply (run_consumes P) in E as (n & Hn & [= <-] & Hm).
      exists 0%nat, n. rewrite Nat.add_0_r. repeat split; done.
    + intros H. apply IH in H as (i & n & -> & -> & Hlen & Hm).
      exists (S i), n. cbn [String.length]. repeat split; [lia..|].
      intros Hb. destruct (Hm Hb) as (j & d & Hj & Hg & Hd).
      exists (S j), d. repeat split; [lia..|done|done].
Qed.

(** The search stops at the first offset where the pattern matches. *)
Lemma search_from_leftmost r : forall i s pos,
  is_Some (match_at r (pos + i) (Re.drop i s)) -> (i <= String.length s)%nat ->
  exists b e, search_from r pos s = Some (b, e) /\ (b <= pos + i)%nat.
Proof.
  induction i as [|i IH]; intros s pos [e He] Hlen.
  - rewrite Nat.add_0_r, drop_0 in He.
    exists pos, e. split; [|lia]. destruct s; cbn [search_from]; by rewrite He.
  - destruct s as [|c s]; [cbn in Hlen; lia|]. cbn [search_from].
    destruct (match_at r pos (String c s)) as [e'|]; [exists pos, e'; split; [done|lia]|].
    cbn [Re.drop] in He. rewrite Nat.add_succ_r in He.
    destruct (IH s (S pos)) as (b & e'' & Hs & Hb); [by eexists | cbn in Hlen; lia|].
    exists b, e''. split; [done | lia].
Qed.

Lemma run_total (r : regex) : forall R pos s (k : nat -> string -> option R),
  total r = true -> (forall p' s', is_Some (k p' s')) -> is_Some (run r pos s k).
Proof.
  induction r as [|p|r1 IH1 r2 IH2|r1 IH1 r2 IH2|r1 IH1| |]; intros R pos s k Ht Hk;
    cbn [run total] in *; try done.
  - apply andb_true_iff in Ht as [Ht1 Ht2]. apply IH1; [done|].
    intros p' s'. by apply IH2.
  - destruct (run r1 pos s k) as [y|] eqn:E; [by eexists|].
    apply orb_true_iff in Ht as [Ht|Ht]; [|by apply IH2].
    destruct (IH1 R pos s k Ht Hk) as [z Hz]. congruence.
  - generalize (String.length s) at 1. intros fuel. revert pos s.
    induction fuel as [|fuel IHf]; intros pos s; [apply Hk|].
    destruct (run r1 pos s _) as [y|]; [by eexists | apply Hk].
Qed.

Lemma run_accepts_first c (r : regex) : forall R pos s (k : nat -> string -> option R),
  accepts_first c r = true -> (forall p' s', is_Some (k p' s')) ->
  is_Some (run r pos (String c s) k).
Proof.
  induction r as [|p|r1 IH1 r2 IH2|r1 IH1 r2 IH2|r1 IH1| |]; intros R pos s k Ha Hk;
    cbn [run accepts_first] in *; try done.
  - rewrite Ha. apply Hk.
  - apply andb_true_iff in Ha as [Ha Ht]. apply IH1; [done|].
    intros p' s'. by apply run_total.
  - destruct (run r1 pos (String c s) k) as [y|] eqn:E; [by eexists|].
    apply orb_true_iff in Ha as [Ha|Ha]; [|by apply IH2].
    destruct (IH1 R pos s k Ha Hk) as [z Hz]. congruence.
Qed.
End ReProofs.

Section ParseLineFacts.
Import Re ReFacts TransactionParser.

Lemma get_drop_cons j (s : string) c :
  String.get j s = Some c -> exists rest, Re.drop j s = String c rest.
Proof.
  revert s. induction j as [|j IH]; intros [|d s]; cbn [String.get Re.drop]; try done.
  - intros [= ->]. by eexists.
  - apply IH.
Qed.

Lemma get_length j (s : string) c : String.get j s = Some c -> (j < String.length s)%nat.
Proof.
  revert s. induction j as [|j IH]; intros [|d s]; cbn [String.get String.length]; try done.
  - lia.
  - intros H. apply IH in H. lia.
Qed.

(** The amount pattern matches wherever a digit stands: its third
    alternative asks for no more. *)
Lemma amount_matches_at_digit pos c (s : string) :
  Py.is_digit c = true -> is_Some (match_at amount_regex pos (String c s)).
Proof.
  intros Hc. unfold match_at. apply run_accepts_first; [|by eexists].
  unfold amount_regex, AMOUNT_PATTERNS, number, rep, digit.
  cbn [alts seqs times upto Nat.sub accepts_first total]. rewrite Hc.
  cbn [andb orb]. by rewrite !orb_true_r.
Qed.

Lemma date_needs_digit : must Py.is_digit date_regex = true.
Proof. by vm_compute. Qed.

Lemma take_0 (s : string) : Re.take 0 s = EmptyString.
Proof. by destruct s. Qed.

(** Where the two searches of [_parse_line] end up: the amount is found at
    or before a digit of the date. *)
Lemma amount_not_after_date line ds de am_s am_e :
  search date_regex line = Some (ds, de) ->
  search amount_regex line = Some (am_s, am_e) ->
  (am_s < de)%nat.
Proof.
  unfold search. intros Hd Ha.
  apply (search_from_span Py.is_digit) in Hd as (i & n & -> & -> & Hlen & Hm).
  destruct (Hm date_needs_digit) as (j & c & Hj & Hg & Hc).
  destruct (get_drop_cons j line c Hg) as (rest & Hrest).
  destruct (search_from_leftmost amount_regex j line 0) as (b & e & Hs & Hb).
  - rewrite Hrest. by apply amount_matches_at_digit.
  - apply get_length in Hg. lia.
  - rewrite Hs in Ha. injection Ha as <- <-. lia.
Qed.

(** X12. [_parse_line] never finds a payee: the amount pattern is
    searched from the start of the line and matches at the first digit it
    meets, which stands in the date or before it, so that the text
    "between date and amount" is empty for every line that is parsed.
    The description is the whole line. *)
Theorem parse_line_never_finds_a_payee (line : string) (r : Raw) :
  _parse_line line = Some r ->
  raw_merchant r = EmptyString /\ raw_description r = line.
Proof.
  unfold _parse_line.
  destruct (search date_regex line) as [[ds de]|] eqn:Hd; [|done].
  destruct (search amount_regex line) as [[am_s am_e]|] eqn:Ha; [|done].
  intros [= <-]. cbn [raw_merchant raw_description]. split; [|done].
  pose proof (amount_not_after_date line ds de am_s am_e Hd Ha) as Hlt.
  unfold slice. replace (am_s - de)%nat with 0%nat by lia. by rewrite take_0.
Qed.

(** X13. A line without any digit gives no transaction: it is dropped
    without an error. *)
Theorem parse_line_needs_a_digit (line : string) :
  (forall i c, String.get i line = Some c -> Py.is_digit c = false) ->
  _parse_line line = None.
Proof.
  intros Hnone. unfold _parse_line.
  destruct (search date_regex line) as [[ds de]|] eqn:Hd; [|done].
  apply (search_from_span Py.is_digit) in Hd as (i & n & _ & _ & _ & Hm).
  destruct (Hm date_needs_digit) as (j & c & _ & Hg & Hc).
  apply Hnone in Hg. congruence.
Qed.
End ParseLineFacts.

Section ParseAmountFacts.
Import Re TransactionParser.

Lemma sub_from_class p fuel : forall pos s,
  (String.length s < fuel)%nat ->
  sub_from fuel (Chr p) pos s = keep (fun c => negb (p c)) s.
Proof.
  induction fuel as [|fuel IH]; intros pos s Hlen; [lia|].
  destruct s as [|c s]; [done|]. cbn [sub_from match_at run keep String.length] in *.
  destruct (p c); cbn [negb].
  - rewrite (proj2 (Nat.ltb_lt pos (S pos))) by lia.
    replace (S pos - pos)%nat with 1%nat by lia. cbn [Re.drop]. rewrite ?drop_0.
    apply IH. lia.
  - f_equal. apply IH. lia.
Qed.

Lemma remove_char_keep c p s :
  Py.remove_char c (keep p s) = keep (fun d => p d && negb (Ascii.eqb d c)) s.
Proof.
  induction s as [|d s IH]; [done|]. cbn [keep].
  destruct (p d); cbn [andb Py.remove_char]; [|done].
  destruct (Ascii.eqb d c); cbn [negb]; by rewrite IH.
Qed.

Lemma keep_ext p q s : (forall c, p c = q c) -> keep p s = keep q s.
Proof. intros H. induction s as [|c s IH]; [done|]. cbn. by rewrite H, IH. Qed.

Lemma parse_amount_reads s :
  _parse_amount s = match float (keep amount_char s) with Some x => x | None => 0%Q end.
Proof.
  unfold _parse_amount, sub. cbv zeta.
  rewrite sub_from_class by lia. rewrite remove_char_keep.
  rewrite (keep_ext _ amount_char); [done|].
  intros c. unfold amount_char.
  destruct (Py.is_digit c) eqn:Hd, (Ascii.eqb_spec c ","), (Ascii.eqb_spec c "."),
    (Ascii.eqb_spec c "-"); subst; try done.
Qed.

Lemma digits_value_no_digit acc (s : string) :
  (forall i c, String.get i s = Some c -> Py.is_digit c = false) ->
  digits_value acc s = Some (acc, s).
Proof.
  destruct s as [|c s]; [done|]. intros H. cbn [digits_value].
  by rewrite (H 0%nat c).
Qed.

Lemma float_needs_digit (s : string) :
  (forall i c, String.get i s = Some c -> Py.is_digit c = false) ->
  float s = None.
Proof.
  assert (Hu : forall s : string,
    (forall i c, String.get i s = Some c -> Py.is_digit c = false) ->
    unsigned_float s = None).
  { intros t Ht. unfold unsigned_float. rewrite digits_value_no_digit by done.
    cbn [mbind option_bind]. rewrite Nat.sub_diag.
    destruct t as [|c t]; [done|]. destruct (Ascii.eqb c "."); [|done].
    rewrite digits_value_no_digit by (intros i d Hg; by apply (Ht (S i))).
    cbn [mbind option_bind]. by destruct t. }
  intros H. destruct s as [|c s]; [done|]. cbn [float].
  destruct (Ascii.eqb c "-").
  - rewrite Hu; [done|]. intros i d Hg. by apply (H (S i)).
  - by apply Hu.
Qed.

Lemma get_keep p (s : string) i c :
  String.get i (keep p s) = Some c -> exists j, String.get j s = Some c.
Proof.
  revert i. induction s as [|d s IH]; intros i; [by destruct i|]. cbn [keep].
  destruct (p d).
  - destruct i as [|i]; cbn [String.get].
    + intros [= ->]. by exists 0%nat.
    + intros H. apply IH in H as [j Hj]. by exists (S j).
  - intros H. apply IH in H as [j Hj]. by exists (S j).
Qed.

(** X14. [_parse_amount] reads the digits, points and minus signs of its
    argument and nothing else: two texts that carry the same ones in the
    same order give the same amount, whatever currency signs, letters,
    blanks and thousands separators stand between them; and a text
    without a digit gives 0, not an error. *)
Theorem parse_amount_reads_digits_only (s1 s2 : string) :
  (keep amount_char s1 = keep amount_char s2 -> _parse_amount s1 = _parse_amount s2)
  /\ ((forall i c, String.get i s1 = Some c -> Py.is_digit c = false) ->
      _parse_amount s1 = 0%Q).
Proof.
  rewrite !parse_amount_reads. split; [by intros ->|].
  intros Hnone. rewrite float_needs_digit; [done|].
  intros i c Hg. apply get_keep in Hg as [j Hj]. by apply (Hnone j).
Qed.
End ParseAmountFacts.

Section ParseTransactionsFacts.
Import Re TransactionParser Spec.
Variable dateutil_parse : string -> bool -> option Datetime.datetime.
Variable now : Datetime.datetime.

Lemma parser_drop_duplicates_subset rows r : r ∈ drop_duplicates rows -> r ∈ rows.
Proof.
  revert r. induction rows as [|x rows IH]; intros r; [done|].
  cbn [drop_duplicates]. rewrite !elem_of_cons, list_elem_of_filter.
  intros [->|[_ H]]; auto.
Qed.

Lemma parser_drop_duplicates_length rows :
  (length (drop_duplicates rows) <= length rows)%nat.
Proof.
  induction rows as [|x rows IH]; [done|]. cbn [drop_duplicates length].
  pose proof (length_filter (fun r' => same_key x r' = false) (drop_duplicates rows)). lia.
Qed.

Lemma StronglySorted_filter {A} (R : A -> A -> Prop) (P : A -> Prop)
    `{forall x, Decision (P x)} l :
  StronglySorted R l -> StronglySorted R (filter P l).
Proof.
  induction 1 as [|x l Hl IH Hx]; [constructor|].
  destruct (decide (P x)); [|by rewrite filter_cons_False].
  rewrite filter_cons_True by done. constructor; [done|].
  apply Forall_forall. intros y Hy. apply list_elem_of_filter in Hy as [_ Hy].
  rewrite Forall_forall in Hx. by apply Hx.
Qed.

Lemma parser_drop_duplicates_sorted (R : Row -> Row -> Prop) rows :
  StronglySorted R rows -> StronglySorted R (drop_duplicates rows).
Proof.
  induction 1 as [|x l Hl IH Hx]; [constructor|]. cbn [drop_duplicates].
  constructor; [by apply StronglySorted_filter|].
  apply Forall_forall. intros y Hy. apply list_elem_of_filter in Hy as [_ Hy].
  apply parser_drop_duplicates_subset in Hy. rewrite Forall_forall in Hx. by apply Hx.
Qed.

Lemma parser_drop_duplicates_distinct rows :
  ForallOrdPairs (fun a b => same_key a b = false) (drop_duplicates rows).
Proof.
  induction rows as [|x rows IH]; [constructor|].
  cbn [drop_duplicates]. constructor.
  - apply List.Forall_forall. intros y Hy. apply list_elem_of_In in Hy.
    by apply list_elem_of_filter in Hy as [Hy _].
  - by apply ForallOrdPairs_filter.
Qed.

Lemma length_omap_le {A B} (f : A -> option B) l : (length (omap f l) <= length l)%nat.
Proof.
  induction l as [|x l IH]; [done|]. cbn [omap list_omap length].
  destruct (f x); cbn [length]; lia.
Qed.

(** X15. The rows [parse_transactions] returns are in descending order
    of date, no two of them have the same date, payee and amount, there
    is at most one of them per line of the text, and the payee of every
    one of them is empty. *)
Theorem parse_transactions_rows (text : string) :
  let rows := parse_transactions dateutil_parse now text in
  StronglySorted (desc date_key) rows
  /\ ForallOrdPairs (fun a b => same_key a b = false) rows
  /\ (length rows <= length (Py.split "010" text))%nat
  /\ Forall (fun r => merchant r = EmptyString) rows.
Proof.
  cbv zeta. unfold parse_transactions, _clean_dataframe. cbv zeta.
  set (raws := omap _ (Py.split "010" text)).
  set (rows := map _ raws).
  split; [|split; [|split]].
  - apply parser_drop_duplicates_sorted, sorted_desc_sorted.
  - apply parser_drop_duplicates_distinct.
  - etrans; [apply parser_drop_duplicates_length|].
    rewrite (Permutation_length (sorted_desc_perm _ rows)).
    unfold rows. rewrite length_map. apply length_omap_le.
  - apply Forall_forall. intros r Hr.
    apply parser_drop_duplicates_subset in Hr.
    rewrite (sorted_desc_perm _ rows) in Hr.
    apply list_elem_of_fmap in Hr as (raw & -> & Hraw). cbn [merchant].
    apply list_elem_of_omap in Hraw as (line & _ & Hline).
    destruct (Py.strip line); [done|].
    unfold _parse_line in Hline.
    destruct (search date_regex _) as [[ds de]|] eqn:Hd; [|done].
    destruct (search amount_regex _) as [[am_s am_e]|] eqn:Ha; [|done].
    injection Hline as <-. cbn [raw_merchant].
    pose proof (amount_not_after_date _ ds de am_s am_e Hd Ha) as Hlt.
    unfold slice. replace (am_s - de)%nat with 0%nat by lia. by rewrite take_0.
Qed.
End ParseTransactionsFacts.

(** * More of [transaction_parser.py]: [_clean_merchant] *)

Section CleanMerchantFacts.
Import TransactionParser.

Lemma no_space_snoc cur c :
  no_space cur = true -> Py.is_space c = false ->
  no_space (cur +:+ String c EmptyString) = true.
Proof.
  intros Hcur Hc. induction cur as [|x cur IH]; cbn [no_space].
  - rewrite append_empty_l. cbn [no_space]. by rewrite Hc.
  - rewrite append_cons. cbn [no_space] in *. apply andb_true_iff in Hcur as [-> Hcur].
    by rewrite IH.
Qed.

Lemma snoc_not_empty cur c : cur +:+ String c EmptyString <> EmptyString.
Proof. by destruct cur. Qed.

Lemma split_ws_aux_words s : forall cur,
  no_space cur = true -> Forall word (Py.split_ws_aux cur s).
Proof.
  induction s as [|c s IH]; intros cur Hcur; cbn [Py.split_ws_aux].
  - destruct cur; [constructor|]. by repeat constructor.
  - destruct (Py.is_space c) eqn:Hc.
    + destruct cur; [by apply IH|]. constructor; [done | by apply IH].
    + apply IH. by apply no_space_snoc.
Qed.

Lemma split_ws_aux_word w : forall cur rest,
  no_space w = true ->
  Py.split_ws_aux cur (w +:+ rest) = Py.split_ws_aux (cur +:+ w) rest.
Proof.
  induction w as [|c w IH]; intros cur rest Hw.
  - by rewrite append_empty_l, append_empty_r.
  - cbn [no_space] in Hw. apply andb_true_iff in Hw as [Hc Hw].
    apply negb_true_iff in Hc. rewrite append_cons. cbn [Py.split_ws_aux]. rewrite Hc.
    rewrite IH by done. by rewrite append_assoc, append_cons, append_empty_l.
Qed.

Lemma split_ws_join ws : Forall word ws -> Py.split_ws (Py.join " " ws) = ws.
Proof.
  unfold Py.split_ws. induction 1 as [|w ws [Hne Hw] Hws IH]; [done|].
  destruct ws as [|w2 ws]; cbn [Py.join].
  - rewrite <- (append_empty_r w) at 1. rewrite split_ws_aux_word, append_empty_l by done.
    cbn [Py.split_ws_aux]. by destruct w.
  - rewrite split_ws_aux_word, append_empty_l, append_cons, append_empty_l by done.
    cbn [Py.split_ws_aux]. change (Py.is_space " ") with true. cbv iota.
    destruct w; [done|]. f_equal. exact IH.
Qed.

Lemma rstrip_no_space w : no_space w = true -> Py.rstrip w = w.
Proof.
  induction w as [|c w IH]; [done|]. cbn [no_space Py.rstrip]. intros Hw.
  apply andb_true_iff in Hw as [Hc Hw]. apply negb_true_iff in Hc.
  rewrite IH by done. destruct w; [by rewrite Hc | done].
Qed.

Lemma rstrip_app_word s w : word w -> Py.rstrip (s +:+ w) = s +:+ w.
Proof.
  intros [Hne Hw]. induction s as [|c s IH].
  - rewrite append_empty_l. by apply rstrip_no_space.
  - rewrite append_cons. cbn [Py.rstrip]. rewrite IH.
    destruct (s +:+ w) eqn:E; [|done]. destruct s, w; done.
Qed.

Lemma join_ends_in_word ws :
  Forall word ws -> ws <> [] -> exists s w, word w /\ Py.join " " ws = s +:+ w.
Proof.
  induction 1 as [|w ws Hw Hws IH]; [done|]. intros _.
  destruct ws as [|w2 ws].
  - exists EmptyString, w. by rewrite append_empty_l.
  - destruct IH as (s & w' & Hw' & E); [done|].
    exists (w +:+ " " +:+ s), w'. split; [done|].
    change (Py.join " " (w :: w2 :: ws)) with (w +:+ " " +:+ Py.join " " (w2 :: ws)).
    by rewrite E, !append_assoc.
Qed.

Lemma strip_join ws : Forall word ws -> Py.strip (Py.join " " ws) = Py.join " " ws.
Proof.
  intros Hws. destruct ws as [|w ws]; [done|].
  destruct (join_ends_in_word (w :: ws) Hws) as (s & w' & Hw' & E); [done|].
  unfold Py.strip.
  assert (Hl : Py.lstrip (Py.join " " (w :: ws)) = Py.join " " (w :: ws)).
  { apply Forall_cons in Hws as [[Hne Hw] _].
    destruct w as [|c w]; [done|]. cbn [no_space] in Hw.
    apply andb_true_iff in Hw as [Hc _]. apply negb_true_iff in Hc.
    destruct ws; cbn [Py.join]; rewrite ?append_cons; cbn [Py.lstrip]; by rewrite Hc. }
  rewrite Hl, E. by apply rstrip_app_word.
Qed.

(** X21. What [_clean_merchant] returns is in normal form for white
    space: it consists of words separated by single blanks, so that
    splitting it gives words only and joining them again gives it back;
    in particular cleaning never leaves a leading, trailing or doubled
    blank. *)
Theorem clean_merchant_normal_form (merchant : string) :
  Forall word (Py.split_ws (_clean_merchant merchant))
  /\ Py.join " " (Py.split_ws (_clean_merchant merchant)) = _clean_merchant merchant
  /\ Py.strip (_clean_merchant merchant) = _clean_merchant merchant.
Proof.
  unfold _clean_merchant. cbv zeta.
  set (ws := Py.split_ws (Re.sub _ _)).
  assert (Hws : Forall word ws) by (by apply split_ws_aux_words).
  rewrite split_ws_join by done. split; [done|]. split; [done|].
  apply strip_join. done.
Qed.
End CleanMerchantFacts.

(** * More of [find_duplicate_transactions]: the window *)

Section WindowFacts.
Import Datetime Analyzer Spec.

Lemma found_nil_duplicates df w :
  (forall a b, a ∈ df -> b ∈ df -> is_similar w a b = false) ->
  find_duplicate_transactions df w = [].
Proof.
  intros Hnone. unfold find_duplicate_transactions. cbv zeta.
  replace (flat_map _ (sort_values df)) with (@nil Duplicate); [done|].
  symmetry. apply elem_of_nil_inv. intros r Hr.
  apply pairs_found in Hr as (a & b & Ha & Hb & Hs & _).
  by rewrite Hnone in Hs.
Qed.

(** X16. A wider window loses nothing: every pair reported with a window
    is reported with every larger one. *)
Theorem duplicates_grow_with_window (df : list Row) (w w' : Z) (r : Duplicate) :
  w <= w' ->
  r ∈ find_duplicate_transactions df w ->
  reported (find_duplicate_transactions df w') r.
Proof.
  intros Hw Hr. unfold find_duplicate_transactions in *. cbv zeta in *.
  apply drop_duplicates_subset, pairs_found in Hr as (a & b & Ha & Hb & Hs & ->).
  apply drop_duplicates_covers, pairs_found. exists a, b. repeat split; try done.
  apply is_similar_spec in Hs as (Hamt & Hdates & Hidx). apply is_similar_spec.
  repeat split; try done; try tauto. unfold one_day in *. nia.
Qed.

(** X17. Nothing is reported when the window is negative, or when no
    two rows with different index labels have the same amount. *)
Theorem duplicates_none (df : list Row) (w : Z) :
  w < 0 \/ (forall a b, a ∈ df -> b ∈ df -> index b <> index a -> ~ (amount b == amount a)%Q) ->
  find_duplicate_transactions df w = [].
Proof.
  intros Hcase. apply found_nil_duplicates. intros a b Ha Hb.
  apply not_true_iff_false. rewrite is_similar_spec. intros (Hamt & Hdates & Hidx).
  destruct Hcase as [Hw|Hdiff].
  - unfold one_day in *. lia.
  - by apply (Hdiff a b).
Qed.

(** X18. With the window 0 the rows reported pair transactions of the
    very same date: zero days apart, and each pair from both sides. *)
Theorem duplicates_window_zero (df : list Row) (r : Duplicate) :
  r ∈ find_duplicate_transactions df 0 ->
  to_micro (date1 r) = to_micro (date2 r) /\ days_apart r = 0
  /\ reported (find_duplicate_transactions df 0) (mirror r).
Proof.
  intros Hr. unfold find_duplicate_transactions in *. cbv zeta in *.
  apply drop_duplicates_subset, pairs_found in Hr as (a & b & Ha & Hb & Hs & ->).
  pose proof Hs as Hs'. apply is_similar_spec in Hs' as (Hamt & Hdates & Hidx).
  cbn [pair_row date1 date2 days_apart]. unfold one_day in *.
  assert (Heq : to_micro (date a) = to_micro (date b)) by lia.
  split; [done|]. split; [unfold sub_days; by rewrite Heq, Z.sub_diag|].
  assert (Hback : is_similar 0 b a = true).
  { apply is_similar_spec. split; [by symmetry|]. unfold one_day. split; [lia | congruence]. }
  destruct (drop_duplicates_covers
              (flat_map (fun row => map (pair_row row)
                  (filter (fun o => is_similar 0 row o = true) (sort_values df)))
                (sort_values df)) (pair_row b a)) as (r' & Hr' & Hsame).
  { apply pairs_found. by exists b, a. }
  exists r'. split; [done|]. apply same_row_trans with (pair_row b a); [done|].
  apply same_row_spec. by cbn.
Qed.
End WindowFacts.

(** * The further properties at work *)

Section MoreInstances.
Import Datetime Models AnomalyDetector.

Lemma baseline_is_memoized_witness :
  let h := Samples.heap_of Samples.rents in
  let bs1 := fst (fst (detect_statistical_anomalies Samples.ext ∅ h (seq 0 10))) in
  seq 0 10 <> []
  /\ (forall l, l ∈ seq 0 10 -> is_Some (bs1 !! category (h l)))
  /\ fst (fst (detect_statistical_anomalies Samples.ext bs1 h [7%nat])) = bs1
  /\ snd (detect_statistical_anomalies Samples.ext bs1 h [7%nat])
     = filter (fun l => Spec.statistical_flag bs1 h l = true) [7%nat].
Proof.
  cbv zeta. split; [done|].
  apply (baseline_is_memoized Samples.ext (Samples.heap_of Samples.rents) (seq 0 10)
           (Samples.heap_of Samples.rents) [7%nat]).
  done.
Defined.


Lemma detect_all_ignores_prior_flags_witness :
  let h := Samples.heap_of Samples.rents in
  let h' : heap := fun l => if (l <? 10)%nat then set_is_anomaly true (h l) else h l in
  detect_all_anomalies Samples.ext 0.1 ∅ h (seq 0 10)
  = detect_all_anomalies Samples.ext 0.1 ∅ h' (seq 0 10).
Proof.
  cbv zeta. apply detect_all_ignores_prior_flags.
  - intros l _. by destruct (l <? 10)%nat.
  - intros l Hl. destruct (Nat.ltb_spec l 10); [|done].
    exfalso. apply Hl, elem_of_seq. lia.
Defined.

Lemma detect_all_idempotent_witness :
  exists bs' h' results,
    detect_all_anomalies Samples.ext 0.1 ∅ (Samples.heap_of Samples.rents) (seq 0 10)
      = Some (bs', h', results)
    /\ detect_all_anomalies Samples.ext 0.1 bs' h' (seq 0 10) = Some (bs', h', results).
Proof.
  destruct (detect_all_anomalies Samples.ext 0.1 ∅ (Samples.heap_of Samples.rents) (seq 0 10))
    as [[[bs' h'] results]|] eqn:E.
  - exists bs', h', results. split; [done|].
    exact (detect_all_idempotent Samples.ext 0.1 ∅ bs' (Samples.heap_of Samples.rents) h'
             (seq 0 10) results E).
  - exfalso. vm_compute in E. discriminate E.
Defined.

Lemma add_custom_category_comes_last_witness :
  let s := with_list ["tattoo"]%string in
  let c := KeywordStore.init s [] in
  let c' := KeywordStore.add_custom_category s c "Body Art" 16%nat in
  KeywordStore.categorize c "Ink Tattoo" "session" = "Other"%string
  /\ KeywordStore.categorize c' "Ink Tattoo" "session" = "Body Art"%string
  /\ (KeywordStore.categorize c "Walmart" "food" <> "Other"%string ->
      KeywordStore.categorize c' "Walmart" "food" = KeywordStore.categorize c "Walmart" "food").
Proof.
  cbv zeta.
  destruct (add_custom_category_comes_last (with_list ["tattoo"]%string)
              (KeywordStore.init (with_list ["tattoo"]%string) []) "Body Art" 16%nat
              "Ink Tattoo" "session") as [_ Hnew]; [by vm_compute | reflexivity |].
  destruct (add_custom_category_comes_last (with_list ["tattoo"]%string)
              (KeywordStore.init (with_list ["tattoo"]%string) []) "Body Art" 16%nat
              "Walmart" "food") as [Hold _]; [by vm_compute | reflexivity |].
  split; [by vm_compute|]. split; [|exact Hold].
  rewrite Hnew; by vm_compute.
Defined.

Lemma update_category_keywords_changes_the_defaults_witness :
  let s := with_list ["bodega"]%string in
  let '(s', c') :=
    KeywordStore.update_category_keywords s (KeywordStore.init s []) "Groceries" 16%nat in
  KeywordStore.contents KeywordStore.loaded
    (KeywordStore.self_categories (KeywordStore.init KeywordStore.loaded []))
  = Categorizer.CATEGORY_KEYWORDS
  /\ KeywordStore.category_patterns c'
     = Categorizer._compile_patterns (KeywordStore.contents s' (KeywordStore.self_categories c'))
  /\ Expense.dict_get "Groceries"
       (KeywordStore.contents s' (KeywordStore.self_categories (KeywordStore.init s' [])))
     = Some (if (1 =? 1)%nat then s 1%nat ++ s 16%nat else s 1%nat).
Proof.
  cbv zeta.
  apply (update_category_keywords_changes_the_defaults (with_list ["bodega"]%string) []
           "Groceries" 1%nat 16%nat "Groceries" 1%nat); by vm_compute.
Defined.

Lemma parse_line_never_finds_a_payee_witness :
  let line := "01/15/2024  Amazon.com   $45.99"%string in
  TransactionParser._parse_line line
  = Some (TransactionParser.mk_Raw "01/15/2024" "" "01" line)
  /\ TransactionParser.raw_merchant (TransactionParser.mk_Raw "01/15/2024" "" "01" line)
     = EmptyString
  /\ TransactionParser.raw_description (TransactionParser.mk_Raw "01/15/2024" "" "01" line)
     = line.
Proof.
  cbv zeta. split; [by vm_compute|].
  apply (parse_line_never_finds_a_payee "01/15/2024  Amazon.com   $45.99").
  by vm_compute.
Defined.

Lemma no_digit_get (s : string) :
  keep Py.is_digit s = EmptyString ->
  forall i c, String.get i s = Some c -> Py.is_digit c = false.
Proof.
  induction s as [|d s IH]; intros Hk i c; [by destruct i|].
  cbn [keep] in Hk. destruct (Py.is_digit d) eqn:Hd; [done|].
  destruct i as [|i]; cbn [String.get]; [by intros [= <-] | by apply IH].
Qed.

Lemma parse_line_needs_a_digit_witness :
  TransactionParser._parse_line "Opening balance carried forward" = None.
Proof.
  apply parse_line_needs_a_digit. apply no_digit_get. by vm_compute.
Defined.

Lemma duplicates_grow_with_window_witness :
  let df := [ Analyzer.mk_Row 0 (Samples.on 2024 1 1) "Netflix" 15.99;
              Analyzer.mk_Row 1 (Samples.on 2024 1 2) "Netflix" 15.99 ]%string in
  let r := Analyzer.mk_Duplicate (Samples.on 2024 1 1) "Netflix" 15.99
                                 (Samples.on 2024 1 2) "Netflix" 1 in
  r ∈ Analyzer.find_duplicate_transactions df 1
  /\ Spec.reported (Analyzer.find_duplicate_transactions df 7) r.
Proof.
  cbv zeta.
  assert (Hin : Analyzer.mk_Duplicate (Samples.on 2024 1 1) "Netflix" 15.99
                                      (Samples.on 2024 1 2) "Netflix" 1
                ∈ Analyzer.find_duplicate_transactions
                    [ Analyzer.mk_Row 0 (Samples.on 2024 1 1) "Netflix" 15.99;
                      Analyzer.mk_Row 1 (Samples.on 2024 1 2) "Netflix" 15.99 ]%string 1).
  { apply list_elem_of_In. vm_compute. by left. }
  split; [exact Hin|].
  apply (duplicates_grow_with_window _ 1 7 _ ltac:(lia) Hin).
Defined.

Lemma duplicates_none_witness :
  Analyzer.find_duplicate_transactions
    [ Analyzer.mk_Row 0 (Samples.on 2024 1 1) "Netflix" 15.99;
      Analyzer.mk_Row 1 (Samples.on 2024 1 1) "Netflix" 15.99 ]%string (-1) = [].
Proof. apply duplicates_none. left. lia. Defined.

Lemma duplicates_window_zero_witness :
  let df := [ Analyzer.mk_Row 0 (Samples.on 2024 1 1) "Netflix" 15.99;
              Analyzer.mk_Row 1 (Samples.on 2024 1 1) "Netflix" 15.99 ]%string in
  let r := Analyzer.mk_Duplicate (Samples.on 2024 1 1) "Netflix" 15.99
                                 (Samples.on 2024 1 1) "Netflix" 0 in
  r ∈ Analyzer.find_duplicate_transactions df 0
  /\ to_micro (Analyzer.date1 r) = to_micro (Analyzer.date2 r)
  /\ Analyzer.days_apart r = 0
  /\ Spec.reported (Analyzer.find_duplicate_transactions df 0) (Spec.mirror r).
Proof.
  cbv zeta.
  assert (Hin : Analyzer.mk_Duplicate (Samples.on 2024 1 1) "Netflix" 15.99
                                      (Samples.on 2024 1 1) "Netflix" 0
                ∈ Analyzer.find_duplicate_transactions
                    [ Analyzer.mk_Row 0 (Samples.on 2024 1 1) "Netflix" 15.99;
                      Analyzer.mk_Row 1 (Samples.on 2024 1 1) "Netflix" 15.99 ]%string 0).
  { apply list_elem_of_In. vm_compute. by left. }
  split; [exact Hin|].
  apply (duplicates_window_zero _ _ Hin).
Defined.

Lemma initial_categories_fresh :
  NoDup (map fst Expense._initialize_categories)
  /\ Forall (fun nc => Expense.transaction_count (snd nc) = 0%nat) Expense._initialize_categories.
Proof.
  split.
  - apply (proj1 (bool_decide_spec (NoDup (map fst Expense._initialize_categories)))).
    by vm_compute.
  - unfold Expense._initialize_categories. apply Forall_forall. intros nc Hnc.
    apply list_elem_of_fmap in Hnc as (nk & -> & _). done.
Qed.

Lemma summary_lists_used_categories_witness :
  let h := Samples.heap_of
             [mk_Transaction (Samples.on 2024 1 1) "Walmart groceries" 80 "" false;
              mk_Transaction (Samples.on 2024 1 2) "Mystery charge" 10 "" false] in
  let summary :=
    Expense.get_category_summary
      (snd (Expense.categorize_transactions Expense._initialize_categories h [0; 1]%nat)) in
  map fst summary
  = filter (fun n => amounts_in Expense._initialize_categories h [0; 1]%nat n <> [])
           (map fst Expense._initialize_categories)
  /\ (forall n row, (n, row) ∈ summary ->
        Expense.s_transaction_count row
        = length (amounts_in Expense._initialize_categories h [0; 1]%nat n))
  /\ sum_list (map (fun nr => Expense.s_transaction_count (snd nr)) summary)
     = length (filter (fun l => category_for Expense._initialize_categories (h l)
                                ∈ map fst Expense._initialize_categories) [0; 1]%nat).
Proof.
  cbv zeta. destruct initial_categories_fresh as [Hnd Hzero].
  exact (summary_lists_used_categories Expense._initialize_categories _ [0; 1]%nat Hnd Hzero).
Defined.

End MoreInstances.
